(** * A shallow embedding of [server.js]

    The portfolio backend is an Express application with two API routes
    ([POST /submit], [GET /submissions]), two static routes, a PostgreSQL
    pool and a mail transporter.  The handlers are embedded as computations
    in a state-and-exception monad over the observable world of the process
    (the database, the pool's checked-out clients, the mail transport and
    the console); what the outside world does at the time of a call (does
    the store answer, does the transport accept) is an explicit [Env]. *)

From Stdlib Require Import ZArith String Ascii DecimalString.
From stdpp Require Import base decidable option list sorting strings.

Local Open Scope Z_scope.

(** * JavaScript values of a parsed JSON body

    [bodyParser.json()] hands the handler whatever JSON the client sent, so
    a destructured field is not known to be a string.  The type holds the
    scalars: an absent field, [null], the booleans, the integers and the
    strings (sequences of UTF-8 bytes).  Arrays, objects and fractions,
    which a body may hold as well, are not in it; the statements below
    that depend on how a field is printed or stored are about fields that
    are strings and say so in their hypotheses. *)

Inductive jsval : Type :=
  | JUndefined
  | JNull
  | JBool (b : bool)
  | JNum (n : Z)
  | JStr (s : string).

#[global] Instance jsval_eq_dec : EqDecision jsval.
Proof. solve_decision. Defined.

Definition is_empty (s : string) : bool :=
  match s with EmptyString => true | String _ _ => false end.

(** ToBoolean, as used by [!x] and [x || y]. *)
Definition truthy (v : jsval) : bool :=
  match v with
  | JUndefined | JNull => false
  | JBool b => b
  | JNum n => negb (n =? 0)
  | JStr s => negb (is_empty s)
  end.

(** [String(n)] of an integer: all its digits, as JavaScript prints the
    integers below 10^21 that a double holds exactly. *)
Definition number_to_string (n : Z) : string :=
  NilZero.string_of_int (Z.to_int n).

(** ToString, as used by the interpolations of a template literal. *)
Definition to_string (v : jsval) : string :=
  match v with
  | JUndefined => "undefined"
  | JNull => "null"
  | JBool true => "true"
  | JBool false => "false"
  | JNum n => number_to_string n
  | JStr s => s
  end.

(** [a || b] *)
Definition js_or (a b : jsval) : jsval := if truthy a then a else b.

(** ** Strings *)

Definition LF : ascii := ascii_of_nat 10.
Definition nl : string := String LF EmptyString.

(** The template of the mail body is indented with pairs of a no-break
    space (U+00A0, bytes 194 160) and a space. *)
Definition nbsp_sp : string :=
  String (ascii_of_nat 194) (String (ascii_of_nat 160) " ").

Fixpoint indent (n : nat) : string :=
  match n with
  | O => EmptyString
  | S n' => nbsp_sp +:+ indent n'
  end.

(** [s.replace(/\n/g, '<br>')] *)
Fixpoint replace_newlines (s : string) : string :=
  match s with
  | EmptyString => EmptyString
  | String c s' =>
      if Ascii.eqb c LF then "<br>" +:+ replace_newlines s'
      else String c (replace_newlines s')
  end.

(** [s.includes(t)] *)
Fixpoint includes (s t : string) : bool :=
  String.prefix t s ||
  match s with
  | EmptyString => false
  | String _ s' => includes s' t
  end.

(** [t] occurs in [s]. *)
Definition contains (s t : string) : Prop :=
  exists pre post, s = pre +:+ t +:+ post.


(** ** The first word of a statement, as the store's lexer reads it

    White space is space, tab, line feed, carriage return, form feed and
    vertical tab; letters, the underscore and every byte from 128 up start
    or continue a word, digits and the dollar sign continue one.  The bytes
    of a no-break space are therefore word bytes, not white space. *)
Definition is_sql_space (c : ascii) : bool :=
  let n := nat_of_ascii c in
  (n =? 32)%nat || ((9 <=? n)%nat && (n <=? 13)%nat).

Definition is_word_byte (c : ascii) : bool :=
  let n := nat_of_ascii c in
  ((65 <=? n)%nat && (n <=? 90)%nat) || ((97 <=? n)%nat && (n <=? 122)%nat)
  || (n =? 95)%nat || (128 <=? n)%nat
  || ((48 <=? n)%nat && (n <=? 57)%nat) || (n =? 36)%nat.

Fixpoint skip_space (s : string) : string :=
  match s with
  | EmptyString => EmptyString
  | String c s' => if is_sql_space c then skip_space s' else s
  end.

Fixpoint take_word (s : string) : string :=
  match s with
  | EmptyString => EmptyString
  | String c s' => if is_word_byte c then String c (take_word s') else EmptyString
  end.

Definition leading_word (s : string) : string := take_word (skip_space s).

(** The number a string of decimal digits stands for; [None] for any
    other string. *)
Fixpoint decimal_value (s : string) (acc : Z) : option Z :=
  match s with
  | EmptyString => Some acc
  | String c s' =>
      let n := nat_of_ascii c in
      if (48 <=? n)%nat && (n <=? 57)%nat
      then decimal_value s' (10 * acc + Z.of_nat (n - 48))
      else None
  end.

(** The double quote, for the texts of the store's messages. *)
Definition dq : string := String (ascii_of_nat 34) EmptyString.

(** * The world of the process *)

(** ** The submissions table

    [id SERIAL PRIMARY KEY, name TEXT NOT NULL, email TEXT NOT NULL,
     about TEXT, prompt TEXT NOT NULL, submission_date TIMESTAMP DEFAULT
     CURRENT_TIMESTAMP].  A nullable column is an [option]. *)
Module Submission.
Record t : Type := mk {
  id : Z;
  name : string;
  email : string;
  about : option string;
  prompt : string;
  submission_date : Z
}.
End Submission.

#[global] Instance row_eq_dec : EqDecision Submission.t.
Proof. solve_decision. Defined.

Record Table : Type := {
  rows : list Submission.t;
  serial : Z            (* next value of the id sequence *)
}.

(** [None]: the relation does not exist yet. *)
Definition Db : Type := option Table.

(** The three statements the program sends. *)
Inductive Sql : Type :=
  | CreateTableIfNotExists
  | InsertReturningId (values : list jsval)
  | SelectOrderByDateDesc.

Inductive QueryResult : Type :=
  | Command
  | Returning (ids : list Z)
  | Rows (rs : list Submission.t).

(** The driver's conversion of a parameter: [undefined] and [null] become
    SQL NULL, a string is sent as it is, a number or a boolean as its
    text. *)
Definition prepareValue (v : jsval) : option string :=
  match v with
  | JUndefined | JNull => None
  | _ => Some (to_string v)
  end.

(** [ORDER BY submission_date DESC]: [r1] may come before [r2]. *)
Definition date_desc (r1 r2 : Submission.t) : Prop :=
  Submission.submission_date r2 <= Submission.submission_date r1.

#[global] Instance date_desc_dec : RelDecision date_desc.
Proof. intros r1 r2. unfold date_desc. apply _. Defined.

Definition order_by_date_desc (l : list Submission.t) : list Submission.t :=
  merge_sort date_desc l.

(** The texts of the three statements, as the program writes them.  The
    template literal of [initializeDatabase] is indented with pairs of a
    no-break space and a space. *)
Definition create_table_sql : string :=
  nl +:+ indent 6 +:+ "CREATE TABLE IF NOT EXISTS submissions ("
  +:+ nl +:+ indent 8 +:+ "id SERIAL PRIMARY KEY,"
  +:+ nl +:+ indent 8 +:+ "name TEXT NOT NULL,"
  +:+ nl +:+ indent 8 +:+ "email TEXT NOT NULL,"
  +:+ nl +:+ indent 8 +:+ "about TEXT,"
  +:+ nl +:+ indent 8 +:+ "prompt TEXT NOT NULL,"
  +:+ nl +:+ indent 8
  +:+ "submission_date TIMESTAMP WITHOUT TIME ZONE DEFAULT CURRENT_TIMESTAMP"
  +:+ nl +:+ indent 6 +:+ ")"
  +:+ nl +:+ indent 4.

Definition insertSql : string :=
  "INSERT INTO submissions (name, email, about, prompt) VALUES ($1, $2, $3, $4) RETURNING id".

Definition select_sql : string :=
  "SELECT * FROM submissions ORDER BY submission_date DESC".

Definition sql_text (q : Sql) : string :=
  match q with
  | CreateTableIfNotExists => create_table_sql
  | InsertReturningId _ => insertSql
  | SelectOrderByDateDesc => select_sql
  end.

(** The word a statement of each kind begins with. *)
Definition sql_keyword (q : Sql) : string :=
  match q with
  | CreateTableIfNotExists => "CREATE"
  | InsertReturningId _ => "INSERT"
  | SelectOrderByDateDesc => "SELECT"
  end.

(** The store takes the text for a statement of its kind when its first
    word is the keyword; the rest of the text is taken as written. *)
Definition parses (q : Sql) : bool :=
  String.eqb (leading_word (sql_text q)) (sql_keyword q).

Definition syntax_error (q : Sql) : string :=
  "syntax error at or near " +:+ dq +:+ leading_word (sql_text q) +:+ dq.

Definition no_relation : string :=
  "relation " +:+ dq +:+ "submissions" +:+ dq +:+ " does not exist".

Definition not_null_violation (column : string) : string :=
  "null value in column " +:+ dq +:+ column +:+ dq +:+ " of relation "
  +:+ dq +:+ "submissions" +:+ dq +:+ " violates not-null constraint".

(** The store executing one statement at time [now].  A rejection for
    any other reason (permissions, a text the store cannot encode) is the
    [query_fault] of the environment. *)
Definition exec_sql (now : Z) (q : Sql) (d : Db) : (QueryResult + string) * Db :=
  if negb (parses q) then (inr (syntax_error q), d)
  else
  match q with
  | CreateTableIfNotExists =>
      match d with
      | Some _ => (inl Command, d)
      | None => (inl Command, Some {| rows := []; serial := 1 |})
      end
  | InsertReturningId values =>
      match d with
      | None => (inr no_relation, d)
      | Some t =>
          match map prepareValue values with
          | [Some n; Some e; a; Some p] =>
              let r := Submission.mk (serial t) n e a p now in
              (inl (Returning [serial t]),
               Some {| rows := rows t ++ [r]; serial := serial t + 1 |})
          | None :: _ => (inr (not_null_violation "name"), d)
          | _ :: None :: _ => (inr (not_null_violation "email"), d)
          | _ => (inr (not_null_violation "prompt"), d)
          end
      end
  | SelectOrderByDateDesc =>
      match d with
      | None => (inr no_relation, d)
      | Some t => (inl (Rows (order_by_date_desc (rows t))), d)
      end
  end.

(** ** Mail *)
Record Mail : Type := {
  from : string;
  to : option string;
  replyTo : jsval;
  subject : string;
  html : string
}.

(** ** Console *)
Record JsError : Type := { err_name : string; message : string }.

Inductive LogArg : Type :=
  | LStr (s : string)
  | LErr (e : JsError).

Inductive Stream : Type := Stdout | Stderr.

Record LogLine : Type := { stream : Stream; args : list LogArg }.

(** ** What the outside world does at the time of a call *)
Record Env : Type := {
  connect_fault : option string;   (* [pool.connect] rejects with this message *)
  query_fault : option string;     (* the store rejects the statement *)
  smtp_fault : option string;      (* the transport rejects the message *)
  listen_fault : option string;    (* the port cannot be bound *)
  message_id : string;             (* identifier the transport assigns *)
  now : Z;                         (* the store's CURRENT_TIMESTAMP *)
  file_exists : string -> bool
}.

(** ** The observable state *)
Record State : Type := {
  db : Db;
  pool_out : nat;                  (* clients checked out of the pool *)
  mail_attempts : list Mail;       (* every call of [transporter.sendMail] *)
  delivered : list Mail;           (* those the transport accepted *)
  console : list LogLine;
  listening : bool
}.

Definition set_db (d : Db) (s : State) : State :=
  {| db := d; pool_out := pool_out s; mail_attempts := mail_attempts s;
     delivered := delivered s; console := console s; listening := listening s |}.

Definition set_pool_out (n : nat) (s : State) : State :=
  {| db := db s; pool_out := n; mail_attempts := mail_attempts s;
     delivered := delivered s; console := console s; listening := listening s |}.

Definition add_attempt (m : Mail) (s : State) : State :=
  {| db := db s; pool_out := pool_out s; mail_attempts := mail_attempts s ++ [m];
     delivered := delivered s; console := console s; listening := listening s |}.

Definition add_delivered (m : Mail) (s : State) : State :=
  {| db := db s; pool_out := pool_out s; mail_attempts := mail_attempts s;
     delivered := delivered s ++ [m]; console := console s; listening := listening s |}.

Definition add_log (l : LogLine) (s : State) : State :=
  {| db := db s; pool_out := pool_out s; mail_attempts := mail_attempts s;
     delivered := delivered s; console := console s ++ [l]; listening := listening s |}.

Definition set_listening (b : bool) (s : State) : State :=
  {| db := db s; pool_out := pool_out s; mail_attempts := mail_attempts s;
     delivered := delivered s; console := console s; listening := b |}.

(** The rows of the table, none when the relation is missing. *)
Definition stored (s : State) : list Submission.t :=
  match db s with Some t => rows t | None => [] end.

(** * Computations that may throw *)

Inductive outcome (A : Type) : Type :=
  | Ret (a : A)
  | Throw (e : JsError).
Arguments Ret {A} a.
Arguments Throw {A} e.

Definition M (A : Type) : Type := State -> outcome A * State.

#[global] Instance M_ret : MRet M := fun A a s => (Ret a, s).

#[global] Instance M_bind : MBind M := fun A B f m s =>
  match m s with
  | (Ret a, s') => f a s'
  | (Throw e, s') => (Throw e, s')
  end.

Definition throw {A : Type} (e : JsError) : M A := fun s => (Throw e, s).

(** [try { body } catch (err) { handler }] *)
Definition try_catch {A : Type} (body : M A) (handler : JsError -> M A) : M A :=
  fun s =>
    match body s with
    | (Ret a, s') => (Ret a, s')
    | (Throw e, s') => handler e s'
    end.

Definition modify (f : State -> State) : M unit := fun s => (Ret tt, f s).

Definition Error (msg : string) : JsError :=
  {| err_name := "Error"; message := msg |}.
Definition TypeError (msg : string) : JsError :=
  {| err_name := "TypeError"; message := msg |}.
Definition RangeError (msg : string) : JsError :=
  {| err_name := "RangeError"; message := msg |}.
(** What the driver throws for a statement the store rejects. *)
Definition DatabaseError (msg : string) : JsError :=
  {| err_name := "error"; message := msg |}.

Definition console_log (a : list LogArg) : M unit :=
  modify (add_log {| stream := Stdout; args := a |}).
Definition console_error (a : list LogArg) : M unit :=
  modify (add_log {| stream := Stderr; args := a |}).

(** * The gateways *)

(** ** The [pg] pool *)

(** [pool.connect()]: checks a client out of the pool. *)
Definition pool_connect (e : Env) : M unit := fun s =>
  match connect_fault e with
  | Some msg => (Throw (Error msg), s)
  | None => (Ret tt, set_pool_out (S (pool_out s)) s)
  end.

(** [client.query(sql, values)] *)
Definition client_query (e : Env) (q : Sql) : M QueryResult := fun s =>
  match query_fault e with
  | Some msg => (Throw (DatabaseError msg), s)
  | None =>
      match exec_sql (now e) q (db s) with
      | (inl r, d) => (Ret r, set_db d s)
      | (inr msg, d) => (Throw (DatabaseError msg), set_db d s)
      end
  end.

(** [client.release()] *)
Definition client_release : M unit :=
  modify (fun s => set_pool_out (Nat.pred (pool_out s)) s).

(** [pool.query(sql, values)]: the pool's own convenience method checks a
    client out, runs the statement and releases the client whether the
    statement succeeded or not. *)
Definition pool_query (e : Env) (q : Sql) : M QueryResult :=
  pool_connect e;;
  r ← try_catch (client_query e q) (fun err => client_release;; throw err);
  client_release;;
  mret r.

(** ** The mail transporter: [transporter.sendMail(mailOptions)] returns
    [info.messageId]. *)
Definition sendMail (e : Env) (m : Mail) : M string :=
  modify (add_attempt m);;
  match smtp_fault e with
  | Some msg => throw (Error msg)
  | None => modify (add_delivered m);; mret (message_id e)
  end.

(** * The HTTP surface *)

Inductive ResBody : Type :=
  | Json (fields : list (string * string))   (* a JSON object *)
  | JsonRows (rs : list Submission.t)               (* a JSON array of rows *)
  | File (path : string)
  | NotFound.

Record Response : Type := { status : Z; body : ResBody }.

(** [res.json(b)] answers 200; [res.status(c).json(b)] answers [c]. *)
Definition res_json (b : ResBody) : Response := {| status := 200; body := b |}.
Definition res_status_json (c : Z) (b : ResBody) : Response :=
  {| status := c; body := b |}.

(** [req.body] of [POST /submit], an object, destructured; for a
    [req.body] that is undefined see [submit_handler]. *)
Record ReqBody : Type := {
  name : jsval;
  email : jsval;
  about : jsval;
  prompt : jsval
}.

(** [process.env] *)
Record Config : Type := {
  PORT : option string;
  EMAIL_USER : option string;
  EMAIL_RECEIVER : option string
}.

(** A [process.env] entry interpolated in a template literal. *)
Definition env_to_string (v : option string) : string :=
  match v with Some s => s | None => "undefined" end.

(** [prompt.replace(/\n/g, '<br>')] on a value that need not be a string. *)
Definition js_replace_newlines (v : jsval) : M string :=
  match v with
  | JStr s => mret (replace_newlines s)
  | JUndefined | JNull =>
      throw (TypeError "Cannot read properties of undefined (reading 'replace')")
  | _ => throw (TypeError "prompt.replace is not a function")
  end.

(** [dbResult.rows[0].id] *)
Definition rows0_id (r : QueryResult) : M Z :=
  match r with
  | Returning (i :: _) => mret i
  | Rows (r0 :: _) => mret (Submission.id r0)
  | _ => throw (TypeError "Cannot read properties of undefined (reading 'id')")
  end.

Definition success_message : string :=
  "Form submitted and email sent successfully!".
Definition failure_message : string :=
  "Failed to send message. Please check server logs for details (Error 500).".

Section Server.

Variable cfg : Config.

(** The [mailOptions] object literal, given the already replaced prompt. *)
Definition mailOptions (name email about : jsval) (details : string) : Mail :=
  {| from := to_string name +:+ " <" +:+ env_to_string (EMAIL_USER cfg) +:+ ">";
     to := EMAIL_RECEIVER cfg;
     replyTo := email;
     subject := "New Portfolio Inquiry: "
                +:+ to_string (js_or about (JStr "General"))
                +:+ " from " +:+ to_string name;
     html := nl +:+ indent 8 +:+ "<h2>New Contact Form Submission</h2>"
          +:+ nl +:+ indent 8 +:+ "<p><strong>Name:</strong> "
          +:+ to_string name +:+ "</p>"
          +:+ nl +:+ indent 8 +:+ "<p><strong>Email:</strong> "
          +:+ to_string email +:+ "</p>"
          +:+ nl +:+ indent 8 +:+ "<p><strong>Subject (About):</strong> "
          +:+ to_string (js_or about (JStr "Not specified")) +:+ "</p>"
          +:+ nl +:+ indent 8 +:+ "<h3>Details:</h3>"
          +:+ nl +:+ indent 8 +:+ "<p>" +:+ details +:+ "</p>"
          +:+ nl +:+ indent 6 |}.

(** [app.post('/submit', ...)] *)
Definition post_submit (e : Env) (req : ReqBody) : M Response :=
  let '(Build_ReqBody name email about prompt) := req in
  if negb (truthy name) || negb (truthy email) || negb (truthy prompt) then
    mret (res_status_json 400 (Json [("message", "Missing required fields.")]))
  else
    try_catch
      (dbResult ← pool_query e (InsertReturningId [name; email; about; prompt]);
       i ← rows0_id dbResult;
       console_log [LStr ("Saved submission ID: " +:+ number_to_string i)];;
       details ← js_replace_newlines prompt;
       info ← sendMail e (mailOptions name email about details);
       console_log [LStr "Email sent successfully! Message ID:"; LStr info];;
       mret (res_json (Json [("message", success_message)])))
      (fun error =>
         console_error [LStr "Submission Error:"; LStr (message error); LErr error];;
         mret (res_status_json 500 (Json [("message", failure_message)]))).

(** [app.get('/submissions', ...)] *)
Definition get_submissions (e : Env) : M Response :=
  try_catch
    (result ← pool_query e SelectOrderByDateDesc;
     mret (res_json
             match result with
             | Rows rs => JsonRows rs
             | _ => JsonRows []
             end))
    (fun err => mret (res_status_json 500 (Json [("error", message err)]))).

(** [res.sendFile(path)]: the file, or 404 when it is absent. *)
Definition sendFile (e : Env) (path : string) : M Response :=
  if file_exists e path then mret {| status := 200; body := File path |}
  else mret {| status := 404; body := NotFound |}.

(** [app.get('/', ...)] and [app.get('/submissions.html', ...)], paths
    relative to [__dirname]. *)
Definition get_index (e : Env) : M Response := sendFile e "frontend/index.html".
Definition get_submissions_html (e : Env) : M Response := sendFile e "submissions.html".

(** The [try] block of [initializeDatabase]. *)
Definition ensure_table (e : Env) : M unit :=
  pool_connect e;;
  client_query e CreateTableIfNotExists;;
  client_release;;
  console_log [LStr "Connected to PostgreSQL and Submissions table is ready."].

(** [initializeDatabase()] *)
Definition initializeDatabase (e : Env) : M unit :=
  try_catch
    (ensure_table e)
    (fun err =>
       console_error [LStr "Error connecting to or initializing PostgreSQL:";
                      LStr (message err)]).

(** [process.env.PORT || 5500] *)
Definition port : string :=
  match PORT cfg with
  | Some p => if is_empty p then "5500" else p
  | None => "5500"
  end.

(** A port written in decimal digits that is above 65535. *)
Definition port_out_of_range (p : string) : bool :=
  match p with
  | EmptyString => false
  | _ =>
      match decimal_value p 0 with
      | Some n => 65535 <? n
      | None => false
      end
  end.

Definition bad_port_message (p : string) : string :=
  "options.port should be >= 0 and < 65536. Received type string ('" +:+ p +:+ "').".

(** [app.listen(port, ...)]: it throws a RangeError for a port out of
    range, and fails when the port cannot be bound; in both cases the
    process ends.  Otherwise the server listens and the callback prints its
    line. *)
Definition listen (e : Env) : M unit :=
  if port_out_of_range port then throw (RangeError (bad_port_message port))
  else
    match listen_fault e with
    | Some msg => throw (Error msg)
    | None =>
        modify (set_listening true);;
        console_log [LStr ("Server is running and serving your portfolio at http://localhost:"
                           +:+ port)]
    end.

(** The top level of the module.  [initializeDatabase()] is called without
    being awaited: up to its first [await] it has no effect, the rest of
    the module runs, the server starts listening, and only then does the
    initialization go on.  Nothing it throws could reach the top level, and
    it throws nothing. *)
Definition startup (e : Env) : M unit :=
  listen e;;
  initializeDatabase e.

End Server.

(** * Sample configurations, environments and requests *)

Definition cfg0 : Config :=
  {| PORT := None;
     EMAIL_USER := Some "site@gmail.com";
     EMAIL_RECEIVER := Some "owner@example.com" |}.

Definition healthy : Env :=
  {| connect_fault := None; query_fault := None; smtp_fault := None;
     listen_fault := None;
     message_id := "<1@gmail.com>"; now := 1000;
     file_exists := fun _ => true |}.

Definition store_down : Env :=
  {| connect_fault := Some "connect ECONNREFUSED 127.0.0.1:5432";
     query_fault := None; smtp_fault := None;
     listen_fault := None;
     message_id := "<1@gmail.com>"; now := 1000;
     file_exists := fun _ => true |}.

Definition query_rejected : Env :=
  {| connect_fault := None;
     query_fault := Some "permission denied for schema public";
     smtp_fault := None;
     listen_fault := None;
     message_id := "<1@gmail.com>"; now := 1000;
     file_exists := fun _ => true |}.

Definition transport_down : Env :=
  {| connect_fault := None; query_fault := None;
     smtp_fault := Some "Invalid login: 535 Username and Password not accepted";
     listen_fault := None;
     message_id := "<1@gmail.com>"; now := 1000;
     file_exists := fun _ => true |}.

Definition fresh (d : Db) : State :=
  {| db := d; pool_out := 0; mail_attempts := []; delivered := [];
     console := []; listening := false |}.

Definition empty_table : Table := {| rows := []; serial := 1 |}.

Definition ada : ReqBody :=
  {| name := JStr "Ada"; email := JStr "ada@x.com"; about := JStr "Hiring";
     prompt := JStr ("Let's talk" +:+ nl +:+ "Thanks") |}.

Definition ada_row (i t : Z) : Submission.t :=
  Submission.mk i "Ada" "ada@x.com" (Some "Hiring") ("Let's talk" +:+ nl +:+ "Thanks") t.

(** [s] has no line feed. *)
Fixpoint no_newline (s : string) : bool :=
  match s with
  | EmptyString => true
  | String c s' => negb (Ascii.eqb c LF) && no_newline s'
  end.

(** A field that is absent from the body or is the empty string. *)
Definition missing_or_empty (v : jsval) : bool :=
  match v with
  | JUndefined => true
  | JStr EmptyString => true
  | _ => false
  end.

(** The store would fail a statement sent in environment [e] at state [s]:
    no connection, a rejected statement, or no submissions relation. *)
Definition store_fails (e : Env) (s : State) : bool :=
  bool_decide (is_Some (connect_fault e)) ||
  bool_decide (is_Some (query_fault e)) ||
  bool_decide (db s = None).

(** The row an accepted insert of [req] adds to table [t] at time [now]. *)
Definition new_row (t : Table) (now : Z) (req : ReqBody) : Submission.t :=
  Submission.mk (serial t) (to_string (name req)) (to_string (email req))
         (prepareValue (about req)) (to_string (prompt req)) now.

(** The answers and console lines of [POST /submit]. *)
Definition response_ok : Response :=
  {| status := 200;
     body := Json [("message", "Form submitted and email sent successfully!")] |}.

Definition response_400 : Response :=
  {| status := 400; body := Json [("message", "Missing required fields.")] |}.

Definition response_500 : Response :=
  {| status := 500;
     body := Json [("message",
       "Failed to send message. Please check server logs for details (Error 500).")] |}.

Definition saved_line (i : Z) : LogLine :=
  {| stream := Stdout; args := [LStr ("Saved submission ID: " +:+ number_to_string i)] |}.

Definition sent_line (mid : string) : LogLine :=
  {| stream := Stdout; args := [LStr "Email sent successfully! Message ID:"; LStr mid] |}.

Definition submission_error_line (err : JsError) : LogLine :=
  {| stream := Stderr;
     args := [LStr "Submission Error:"; LStr (message err); LErr err] |}.

Definition init_error_line (err : JsError) : LogLine :=
  {| stream := Stderr;
     args := [LStr "Error connecting to or initializing PostgreSQL:";
              LStr (message err)] |}.

(** The request passes the presence check of the handler. *)
Definition valid (req : ReqBody) : bool :=
  truthy (name req) && truthy (email req) && truthy (prompt req).

(** The table after an accepted insert of [req]. *)
Definition inserted (t : Table) (now : Z) (req : ReqBody) : Table :=
  {| rows := rows t ++ [new_row t now req]; serial := serial t + 1 |}.

(** The statement [POST /submit] sends for [req]. *)
Definition insert_of (req : ReqBody) : Sql :=
  InsertReturningId [name req; email req; about req; prompt req].

(** The mail the handler composes for a request whose prompt is the
    string [p]. *)
Definition mail_of (cfg : Config) (req : ReqBody) (p : string) : Mail :=
  mailOptions cfg (name req) (email req) (about req) (replace_newlines p).

Definition three_rows : Table :=
  {| rows := [ada_row 1 5; ada_row 2 9; ada_row 3 7]; serial := 4 |}.

Definition ada_no_about : ReqBody :=
  {| name := JStr "Ada"; email := JStr "ada@x.com"; about := JUndefined;
     prompt := JStr "hi" |}.

(** ** The runs of [POST /submit]

    The five ways through the handler, each with the answer and the state
    it ends in. *)
Inductive submit_run (cfg : Config) (e : Env) (req : ReqBody) (s : State) :
    outcome Response * State -> Prop :=
  | run_invalid :
      valid req = false ->
      submit_run cfg e req s (Ret response_400, s)
  | run_store_fails (err : JsError) :
      valid req = true -> store_fails e s = true ->
      submit_run cfg e req s
        (Ret response_500, add_log (submission_error_line err) s)
  | run_prompt_not_text (t : Table) (err : JsError) :
      valid req = true -> store_fails e s = false -> db s = Some t ->
      (forall p, prompt req <> JStr p) ->
      submit_run cfg e req s
        (Ret response_500,
         add_log (submission_error_line err)
           (add_log (saved_line (serial t))
              (set_db (Some (inserted t (now e) req)) s)))
  | run_transport_rejects (t : Table) (p msg : string) :
      valid req = true -> store_fails e s = false -> db s = Some t ->
      prompt req = JStr p -> smtp_fault e = Some msg ->
      submit_run cfg e req s
        (Ret response_500,
         add_log (submission_error_line (Error msg))
           (add_attempt (mail_of cfg req p)
              (add_log (saved_line (serial t))
                 (set_db (Some (inserted t (now e) req)) s))))
  | run_accepted (t : Table) (p : string) :
      valid req = true -> store_fails e s = false -> db s = Some t ->
      prompt req = JStr p -> smtp_fault e = None ->
      submit_run cfg e req s
        (Ret response_ok,
         add_log (sent_line (message_id e))
           (add_delivered (mail_of cfg req p)
              (add_attempt (mail_of cfg req p)
                 (add_log (saved_line (serial t))
                    (set_db (Some (inserted t (now e) req)) s))))).

(** ** The life of the process: the calls it serves, one after the other,
    each in the environment of its time. *)
Inductive Call : Type :=
  | Startup (e : Env)
  | Submit (e : Env) (req : ReqBody)
  | List (e : Env).

Definition call (cfg : Config) (c : Call) (s : State) : State :=
  match c with
  | Startup e => (startup cfg e s).2
  | Submit e req => (post_submit cfg e req s).2
  | List e => (get_submissions e s).2
  end.

Definition run_calls (cfg : Config) (cs : list Call) (s : State) : State :=
  foldl (fun st c => call cfg c st) s cs.

(** No store fault in [e]. *)
Definition store_answers (e : Env) : bool :=
  bool_decide (connect_fault e = None) && bool_decide (query_fault e = None).

Definition numeric_prompt : ReqBody :=
  {| name := JStr "Ada"; email := JStr "ada@x.com"; about := JUndefined;
     prompt := JNum 5 |}.

Definition bob : ReqBody :=
  {| name := JStr "Bob"; email := JStr "bob@x.com"; about := JStr "Hello";
     prompt := JStr "hi" |}.

Definition later : Env :=
  {| connect_fault := None; query_fault := None; smtp_fault := None;
     listen_fault := None;
     message_id := "<2@gmail.com>"; now := 2000;
     file_exists := fun _ => true |}.

(** [lines.join(sep)] *)
Fixpoint join (sep : string) (lines : list string) : string :=
  match lines with
  | [] => EmptyString
  | [l] => l
  | l :: rest => l +:+ sep +:+ join sep rest
  end.

(** The line [app.listen]'s callback prints. *)
Definition listening_line (cfg : Config) : LogLine :=
  {| stream := Stdout;
     args := [LStr ("Server is running and serving your portfolio at http://localhost:"
                    +:+ port cfg)] |}.

(** The [try] block of [POST /submit]. *)
Definition submit_try (cfg : Config) (e : Env) (req : ReqBody) : M Response :=
  dbResult ← pool_query e (insert_of req);
  i ← rows0_id dbResult;
  console_log [LStr ("Saved submission ID: " +:+ number_to_string i)];;
  details ← js_replace_newlines (prompt req);
  info ← sendMail e (mailOptions cfg (name req) (email req) (about req) details);
  console_log [LStr "Email sent successfully! Message ID:"; LStr info];;
  mret (res_json (Json [("message", success_message)])).

(** The handler as Express calls it.  [req.body] is an object when the
    JSON middleware parsed one; when it parsed none, [req.body] is either
    the empty object (all four fields undefined) or, with the middleware
    leaving it unset, [undefined]: then the destructuring, which stands
    before the [try], throws. *)
Definition submit_handler (cfg : Config) (e : Env) (body : option ReqBody) :
    M Response :=
  match body with
  | None =>
      throw (TypeError
        "Cannot destructure property 'name' of 'req.body' as it is undefined.")
  | Some req => post_submit cfg e req
  end.

(** A request of text fields: name, email and prompt non-empty strings,
    about absent or a string. *)
Definition text_request (req : ReqBody) : bool :=
  match name req, email req, prompt req, about req with
  | JStr n, JStr em, JStr p, (JUndefined | JStr _) =>
      negb (is_empty n) && negb (is_empty em) && negb (is_empty p)
  | _, _, _, _ => false
  end.

(** The error [initializeDatabase] runs into in environment [e]: no
    connection, a statement the store rejects, or the statement as it is
    written. *)
Definition init_error (e : Env) : JsError :=
  match connect_fault e with
  | Some msg => Error msg
  | None =>
      match query_fault e with
      | Some msg => DatabaseError msg
      | None => DatabaseError (syntax_error CreateTableIfNotExists)
      end
  end.

(** A configuration with a port that is out of range. *)
Definition cfg_bad_port : Config :=
  {| PORT := Some "70000";
     EMAIL_USER := Some "site@gmail.com";
     EMAIL_RECEIVER := Some "owner@example.com" |}.

(** [app.listen] succeeds: the port is in range and can be bound. *)
Definition listen_succeeds (cfg : Config) (e : Env) : bool :=
  negb (port_out_of_range (port cfg)) && bool_decide (listen_fault e = None).

Ltac unfold_M :=
  unfold try_catch, modify, throw, console_log, console_error,
    mbind, M_bind, mret, M_ret in *.

(** * Evaluation on small inputs *)

Example number_to_string_42 : number_to_string 42 = "42".
Proof. reflexivity. Qed.

Example replace_newlines_ada :
  replace_newlines ("Let's talk" +:+ nl +:+ "Thanks") = "Let's talk<br>Thanks".
Proof. reflexivity. Qed.

(** * Strings: replacement and occurrence *)

Lemma append_nil (b : string) : EmptyString +:+ b = b.
Proof. reflexivity. Qed.

Lemma append_cons (c : ascii) (a b : string) :
  String c a +:+ b = String c (a +:+ b).
Proof. reflexivity. Qed.

Lemma append_assoc (a b c : string) : (a +:+ b) +:+ c = a +:+ (b +:+ c).
Proof.
  induction a as [|x a IH]; [reflexivity|].
  rewrite !append_cons. by rewrite IH.
Qed.

Lemma replace_newlines_app (a b : string) :
  replace_newlines (a +:+ b) = replace_newlines a +:+ replace_newlines b.
Proof.
  induction a as [|c a IH]; [reflexivity|].
  rewrite append_cons. cbn [replace_newlines].
  destruct (Ascii.eqb c LF); rewrite IH.
  - by rewrite append_assoc.
  - by rewrite append_cons.
Qed.

Lemma replace_newlines_nl : replace_newlines nl = "<br>".
Proof. reflexivity. Qed.

Lemma replace_newlines_id (s : string) :
  no_newline s = true -> replace_newlines s = s.
Proof.
  induction s as [|c s IH]; cbn [replace_newlines no_newline]; [reflexivity|].
  destruct (Ascii.eqb c LF); cbn [negb andb]; [discriminate|].
  intros H. by rewrite IH.
Qed.

Lemma no_newline_app (a b : string) :
  no_newline (a +:+ b) = no_newline a && no_newline b.
Proof.
  induction a as [|c a IH]; [reflexivity|].
  rewrite append_cons. cbn [no_newline]. rewrite IH.
  by destruct (Ascii.eqb c LF).
Qed.

(** After the replacement no line feed is left. *)
Lemma no_newline_replace (s : string) : no_newline (replace_newlines s) = true.
Proof.
  induction s as [|c s IH]; cbn [replace_newlines]; [reflexivity|].
  destruct (Ascii.eqb c LF) eqn:E.
  - rewrite no_newline_app. by rewrite IH.
  - cbn [no_newline]. by rewrite E, IH.
Qed.

(** A prompt with one line feed between two lines without any. *)
Lemma replace_newlines_two_lines (u v : string) :
  no_newline u = true -> no_newline v = true ->
  replace_newlines (u +:+ nl +:+ v) = u +:+ "<br>" +:+ v.
Proof.
  intros Hu Hv. rewrite !replace_newlines_app, replace_newlines_nl.
  by rewrite !replace_newlines_id.
Qed.

Lemma contains_refl_app (t post : string) : contains (t +:+ post) t.
Proof. by exists EmptyString, post. Qed.

Lemma contains_cons (c : ascii) (s t : string) :
  contains s t -> contains (String c s) t.
Proof. intros (pre & post & ->). by exists (String c pre), post. Qed.

Lemma contains_app_r (a s t : string) : contains s t -> contains (a +:+ s) t.
Proof.
  intros (pre & post & ->). exists (a +:+ pre), post. by rewrite append_assoc.
Qed.

Lemma prefix_app (t s : string) :
  String.prefix t s = true <-> exists post, s = t +:+ post.
Proof.
  revert s. induction t as [|c t IH]; intros [|d s]; cbn [String.prefix].
  - split; [intros _; by exists EmptyString | done].
  - split; [intros _; by exists (String d s) | done].
  - split; [done | intros [post H]; discriminate].
  - destruct (ascii_dec c d) as [->|Hne].
    + rewrite IH. split; intros [post H]; exists post;
        rewrite ?append_cons in *; congruence.
    + split; [done | intros [post H]; rewrite append_cons in H; congruence].
Qed.

(** The executable search agrees with occurrence. *)
Lemma includes_contains (s t : string) : includes s t = true <-> contains s t.
Proof.
  induction s as [|c s IH].
  - cbn [includes]. rewrite orb_false_r, prefix_app. split.
    + intros [post ->]. apply contains_refl_app.
    + intros (pre & post & H). destruct pre; [by exists post|discriminate].
  - cbn [includes]. rewrite orb_true_iff, IH, prefix_app. split.
    + intros [[post ->] | H]; [apply contains_refl_app | by apply contains_cons].
    + intros (pre & post & H). destruct pre as [|d pre].
      * left. by exists post.
      * right. exists pre, post. rewrite append_cons in H. congruence.
Qed.

(** * The pool *)

(** The statement of [initializeDatabase] does not begin with its keyword:
    the first word the store reads is the no-break space of the
    indentation. *)
Lemma create_table_leading_word :
  leading_word create_table_sql = String (ascii_of_nat 194) (String (ascii_of_nat 160) EmptyString)
  /\ parses CreateTableIfNotExists = false.
Proof. split; vm_compute; reflexivity. Qed.

Lemma exec_sql_create (now : Z) (d : Db) :
  exec_sql now CreateTableIfNotExists d
  = (inr (syntax_error CreateTableIfNotExists), d).
Proof.
  unfold exec_sql.
  change (parses CreateTableIfNotExists) with false. reflexivity.
Qed.

Lemma exec_sql_insert (now : Z) (vs : list jsval) (d : Db) :
  exec_sql now (InsertReturningId vs) d =
    match d with
    | None => (inr no_relation, d)
    | Some t =>
        match map prepareValue vs with
        | [Some n; Some e; a; Some p] =>
            (inl (Returning [serial t]),
             Some {| rows := rows t ++ [Submission.mk (serial t) n e a p now];
                     serial := serial t + 1 |})
        | None :: _ => (inr (not_null_violation "name"), d)
        | _ :: None :: _ => (inr (not_null_violation "email"), d)
        | _ => (inr (not_null_violation "prompt"), d)
        end
    end.
Proof.
  unfold exec_sql.
  change (parses (InsertReturningId vs)) with true. reflexivity.
Qed.

Lemma exec_sql_select (now : Z) (d : Db) :
  exec_sql now SelectOrderByDateDesc d =
    match d with
    | None => (inr no_relation, d)
    | Some t => (inl (Rows (order_by_date_desc (rows t))), d)
    end.
Proof.
  unfold exec_sql.
  change (parses SelectOrderByDateDesc) with true. reflexivity.
Qed.

Lemma exec_sql_error_keeps_db (now : Z) (q : Sql) (d d' : Db) (msg : string) :
  exec_sql now q d = (inr msg, d') -> d' = d.
Proof.
  destruct q as [|vs|].
  - rewrite exec_sql_create. congruence.
  - rewrite exec_sql_insert. destruct d as [t|]; [|congruence].
    destruct (map prepareValue vs) as [|[?|] [|[?|] [|? [|[?|] [|? ?]]]]]; congruence.
  - rewrite exec_sql_select. destruct d as [t|]; congruence.
Qed.

(** What [pool.query] comes to: the client it checks out is back in the
    pool afterwards, so only the statement's own effect is left. *)
Lemma pool_query_run (e : Env) (q : Sql) (s : State) :
  pool_query e q s =
    match connect_fault e with
    | Some msg => (Throw (Error msg), s)
    | None =>
        match query_fault e with
        | Some msg => (Throw (DatabaseError msg), s)
        | None =>
            match exec_sql (now e) q (db s) with
            | (inl r, d) => (Ret r, set_db d s)
            | (inr msg, d) => (Throw (DatabaseError msg), set_db d s)
            end
        end
    end.
Proof.
  unfold pool_query, pool_connect, client_query, client_release. unfold_M.
  destruct (connect_fault e); [done|].
  destruct (query_fault e); cbn; [by destruct s|].
  destruct (exec_sql (now e) q (db s)) as [[r|msg] d]; by destruct s.
Qed.

Lemma pool_query_pool_out (e : Env) (q : Sql) (s : State) :
  pool_out (pool_query e q s).2 = pool_out s.
Proof.
  rewrite pool_query_run.
  destruct (connect_fault e); [done|]. destruct (query_fault e); [done|].
  by destruct (exec_sql (now e) q (db s)) as [[r|msg] d].
Qed.

(** A statement that throws leaves the whole state as it was. *)
Lemma pool_query_throw (e : Env) (q : Sql) (s s1 : State) (err : JsError) :
  pool_query e q s = (Throw err, s1) -> s1 = s.
Proof.
  rewrite pool_query_run.
  destruct (connect_fault e); [congruence|]. destruct (query_fault e); [congruence|].
  destruct (exec_sql (now e) q (db s)) as [[r|msg] d] eqn:E; [congruence|].
  apply exec_sql_error_keeps_db in E as ->. intros [= _ <-]. by destruct s.
Qed.

Lemma prepareValue_truthy (v : jsval) :
  truthy v = true -> prepareValue v = Some (to_string v).
Proof. by destruct v. Qed.

Lemma valid_fields (req : ReqBody) :
  valid req = true ->
  truthy (name req) = true /\ truthy (email req) = true /\ truthy (prompt req) = true.
Proof. unfold valid. rewrite !andb_true_iff. tauto. Qed.

(** The insert of a valid request into an existing table is accepted. *)
Lemma insert_accepted (e : Env) (req : ReqBody) (s : State) (t : Table) :
  valid req = true ->
  connect_fault e = None -> query_fault e = None -> db s = Some t ->
  pool_query e (insert_of req) s =
    (Ret (Returning [serial t]), set_db (Some (inserted t (now e) req)) s).
Proof.
  intros (Hn & He & Hp)%valid_fields Hc Hq Hd.
  rewrite pool_query_run, Hc, Hq, Hd. unfold insert_of.
  rewrite exec_sql_insert. cbn [map].
  rewrite !prepareValue_truthy by done. done.
Qed.

(** When the store fails, the insert throws and changes nothing. *)
Lemma insert_rejected (e : Env) (req : ReqBody) (s : State) :
  store_fails e s = true ->
  exists err, pool_query e (insert_of req) s = (Throw err, s).
Proof.
  unfold store_fails. rewrite !orb_true_iff, !bool_decide_eq_true.
  intros H. rewrite pool_query_run.
  destruct (connect_fault e) as [m|]; [by eexists|].
  destruct (query_fault e) as [m|]; [by eexists|].
  destruct H as [[[? [=]]|[? [=]]]|Hd]. unfold insert_of.
  rewrite exec_sql_insert, Hd. eexists. f_equal. rewrite <- Hd. by destruct s.
Qed.

(** * [POST /submit] *)

Section PostSubmit.

Variable cfg : Config.

Lemma post_submit_invalid (e : Env) (req : ReqBody) (s : State) :
  valid req = false -> post_submit cfg e req s = (Ret response_400, s).
Proof.
  destruct req as [n em a p]. unfold valid, post_submit. cbn [name email prompt].
  intros H.
  replace (negb (truthy n) || negb (truthy em) || negb (truthy p)) with true; [done|].
  by destruct (truthy n), (truthy em), (truthy p).
Qed.

Lemma post_submit_valid_unfold (e : Env) (req : ReqBody) :
  valid req = true ->
  post_submit cfg e req =
    try_catch
      (dbResult ← pool_query e (insert_of req);
       i ← rows0_id dbResult;
       console_log [LStr ("Saved submission ID: " +:+ number_to_string i)];;
       details ← js_replace_newlines (prompt req);
       info ← sendMail e (mailOptions cfg (name req) (email req) (about req) details);
       console_log [LStr "Email sent successfully! Message ID:"; LStr info];;
       mret (res_json (Json [("message", success_message)])))
      (fun error =>
         console_error [LStr "Submission Error:"; LStr (message error); LErr error];;
         mret (res_status_json 500 (Json [("message", failure_message)]))).
Proof.
  destruct req as [n em a p]. unfold valid, post_submit. cbn [name email about prompt].
  intros H.
  replace (negb (truthy n) || negb (truthy em) || negb (truthy p)) with false; [done|].
  by destruct (truthy n), (truthy em), (truthy p).
Qed.

(** The insert throws: the handler logs the error and answers 500. *)
Lemma post_submit_insert_throws (e : Env) (req : ReqBody) (s s1 : State) (err : JsError) :
  valid req = true ->
  pool_query e (insert_of req) s = (Throw err, s1) ->
  post_submit cfg e req s =
    (Ret response_500, add_log (submission_error_line err) s1).
Proof.
  intros Hv Hq. rewrite post_submit_valid_unfold by done.
  unfold_M. by rewrite Hq.
Qed.

(** The insert is accepted and the prompt is a string: the mail is
    handed to the transport, whose verdict decides the answer. *)
Lemma post_submit_insert_returns (e : Env) (req : ReqBody) (s s1 : State)
    (i : Z) (ids : list Z) (p : string) :
  valid req = true ->
  pool_query e (insert_of req) s = (Ret (Returning (i :: ids)), s1) ->
  prompt req = JStr p ->
  post_submit cfg e req s =
    let s2 := add_attempt (mail_of cfg req p) (add_log (saved_line i) s1) in
    match smtp_fault e with
    | None =>
        (Ret response_ok,
         add_log (sent_line (message_id e)) (add_delivered (mail_of cfg req p) s2))
    | Some msg =>
        (Ret response_500, add_log (submission_error_line (Error msg)) s2)
    end.
Proof.
  intros Hv Hq Hp. rewrite post_submit_valid_unfold by done.
  unfold sendMail, js_replace_newlines, rows0_id. unfold_M.
  rewrite Hq, Hp. cbn. by destruct (smtp_fault e).
Qed.

(** The insert is accepted but the prompt is not a string: [replace] is
    not a function of it, the handler throws before the mail is composed. *)
Lemma post_submit_prompt_not_string (e : Env) (req : ReqBody) (s s1 : State)
    (i : Z) (ids : list Z) :
  valid req = true ->
  pool_query e (insert_of req) s = (Ret (Returning (i :: ids)), s1) ->
  (forall p, prompt req <> JStr p) ->
  exists err,
    post_submit cfg e req s =
      (Ret response_500,
       add_log (submission_error_line err) (add_log (saved_line i) s1)).
Proof.
  intros Hv Hq Hp. rewrite post_submit_valid_unfold by done.
  unfold sendMail, js_replace_newlines, rows0_id. unfold_M.
  rewrite Hq. cbn.
  destruct (prompt req) as [| |b|n|p]; try (by eexists).
  by destruct (Hp p).
Qed.

End PostSubmit.

(** A prompt that is the number 5 passes the presence check: the row is
    inserted, then [prompt.replace] throws and the answer is 500 without
    any mail. *)
Example post_submit_numeric_prompt :
  let req := {| name := JStr "Ada"; email := JStr "ada@x.com";
                about := JUndefined; prompt := JNum 5 |} in
  exists s',
    post_submit cfg0 healthy req (fresh (Some empty_table)) = (Ret response_500, s')
    /\ stored s' = [Submission.mk 1 "Ada" "ada@x.com" None "5" 1000]
    /\ mail_attempts s' = [].
Proof. eexists. repeat split; vm_compute; reflexivity. Qed.

Lemma store_fails_false (e : Env) (s : State) :
  store_fails e s = false ->
  connect_fault e = None /\ query_fault e = None /\ exists t, db s = Some t.
Proof.
  unfold store_fails. rewrite !orb_false_iff, !bool_decide_eq_false.
  intros [[Hc Hq] Hd].
  destruct (connect_fault e); [by destruct Hc|].
  destruct (query_fault e); [by destruct Hq|].
  destruct (db s) as [t|]; [eauto | done].
Qed.

(** An insert of a valid request that returns did so on an existing table,
    with the next serial number, and added exactly the new row. *)
Lemma insert_returns_inv (e : Env) (req : ReqBody) (s s1 : State) (r : QueryResult) :
  valid req = true ->
  pool_query e (insert_of req) s = (Ret r, s1) ->
  exists t, db s = Some t /\ r = Returning [serial t] /\
            s1 = set_db (Some (inserted t (now e) req)) s.
Proof.
  intros Hv Hq. destruct (store_fails e s) eqn:Hf.
  - destruct (insert_rejected e req s Hf) as [err H]. congruence.
  - apply store_fails_false in Hf as (Hc & Hqf & t & Hd).
    rewrite (insert_accepted e req s t) in Hq by done.
    exists t. split; [done|]. by injection Hq as <- <-.
Qed.

Lemma missing_or_empty_falsy (v : jsval) :
  missing_or_empty v = true -> truthy v = false.
Proof. by destruct v as [| | | |[|]]. Qed.

(** C1. A create request whose name and email are present and whose prompt
    is a non-empty string, when the insert returns and the transport
    accepts the mail: exactly one row is added to the table, exactly one
    mail is handed to the transport, and the answer is 200 with the body
    [{message: 'Form submitted and email sent successfully!'}]. *)
Theorem post_submit_success (cfg : Config) (e : Env) (req : ReqBody)
    (s s1 : State) (p : string) (r : QueryResult) :
  truthy (name req) = true ->
  truthy (email req) = true ->
  prompt req = JStr p ->
  is_empty p = false ->
  pool_query e (insert_of req) s = (Ret r, s1) ->
  smtp_fault e = None ->
  exists s' t,
    post_submit cfg e req s =
      (Ret {| status := 200;
              body := Json [("message", "Form submitted and email sent successfully!")] |},
       s')
    /\ db s = Some t
    /\ stored s' = stored s ++ [new_row t (now e) req]
    /\ mail_attempts s' = mail_attempts s ++ [mail_of cfg req p]
    /\ delivered s' = delivered s ++ [mail_of cfg req p].
Proof.
  intros Hn He Hp Hne Hq Hsmtp.
  assert (valid req = true) as Hv.
  { unfold valid. rewrite Hn, He, Hp. cbn. by rewrite Hne. }
  destruct (insert_returns_inv e req s s1 r Hv Hq) as (t & Hd & -> & ->).
  rewrite (post_submit_insert_returns cfg e req s _ _ _ p Hv Hq Hp), Hsmtp.
  eexists _, t. split; [reflexivity|]. split; [done|].
  unfold stored. rewrite Hd. by destruct s.
Qed.

Lemma post_submit_success_witness :
  exists s' t,
    post_submit cfg0 healthy ada (fresh (Some empty_table)) =
      (Ret {| status := 200;
              body := Json [("message", "Form submitted and email sent successfully!")] |},
       s')
    /\ db (fresh (Some empty_table)) = Some t
    /\ stored s' = stored (fresh (Some empty_table)) ++ [new_row t (now healthy) ada]
    /\ mail_attempts s' = [] ++ [mail_of cfg0 ada ("Let's talk" +:+ nl +:+ "Thanks")]
    /\ delivered s' = [] ++ [mail_of cfg0 ada ("Let's talk" +:+ nl +:+ "Thanks")].
Proof.
  apply (post_submit_success cfg0 healthy ada (fresh (Some empty_table))
           (set_db (Some (inserted empty_table 1000 ada)) (fresh (Some empty_table)))
           ("Let's talk" +:+ nl +:+ "Thanks") (Returning [1]));
    reflexivity.
Defined.

(** C2. A create request that passes validation.  If the insert throws, no
    mail is handed to the transport, the table is as before and the answer
    is 500.  If the insert returns and the transport rejects the mail, the
    new row stays in the table (nothing deletes it), no mail is delivered
    and the answer is 500 all the same. *)
Theorem post_submit_failures (cfg : Config) (e : Env) (req : ReqBody) (s : State) :
  valid req = true ->
  (forall err s1,
     pool_query e (insert_of req) s = (Throw err, s1) ->
     exists s',
       post_submit cfg e req s = (Ret response_500, s')
       /\ status response_500 = 500
       /\ db s' = db s
       /\ mail_attempts s' = mail_attempts s
       /\ delivered s' = delivered s)
  /\
  (forall r s1 msg,
     pool_query e (insert_of req) s = (Ret r, s1) ->
     smtp_fault e = Some msg ->
     exists s' t,
       post_submit cfg e req s = (Ret response_500, s')
       /\ db s = Some t
       /\ stored s' = stored s ++ [new_row t (now e) req]
       /\ delivered s' = delivered s).
Proof.
  intros Hv. split.
  - intros err s1 Hq.
    rewrite (post_submit_insert_throws cfg e req s s1 err Hv Hq).
    apply pool_query_throw in Hq as ->.
    eexists. split; [reflexivity|]. by destruct s.
  - intros r s1 msg Hq Hsmtp.
    destruct (insert_returns_inv e req s s1 r Hv Hq) as (t & Hd & -> & ->).
    assert (stored s = rows t) as Hs by (unfold stored; by rewrite Hd).
    destruct (prompt req) as [| |b|n|p] eqn:Hp.
    1-4: destruct (post_submit_prompt_not_string cfg e req s _ _ _ Hv Hq) as [err ->];
      [by rewrite Hp | eexists _, t; split; [reflexivity|]; by rewrite Hs].
    rewrite (post_submit_insert_returns cfg e req s _ _ _ p Hv Hq Hp), Hsmtp.
    eexists _, t. split; [reflexivity|]. by rewrite Hs.
Qed.

Lemma post_submit_failures_witness :
  (exists s',
     post_submit cfg0 store_down ada (fresh (Some empty_table)) = (Ret response_500, s')
     /\ status response_500 = 500
     /\ db s' = Some empty_table
     /\ mail_attempts s' = []
     /\ delivered s' = [])
  /\
  (exists s' t,
     post_submit cfg0 transport_down ada (fresh (Some empty_table)) = (Ret response_500, s')
     /\ db (fresh (Some empty_table)) = Some t
     /\ stored s' = [] ++ [new_row t 1000 ada]
     /\ delivered s' = []).
Proof.
  split.
  - apply (proj1 (post_submit_failures cfg0 store_down ada (fresh (Some empty_table))
                    eq_refl)
             (Error "connect ECONNREFUSED 127.0.0.1:5432") (fresh (Some empty_table))).
    reflexivity.
  - apply (proj2 (post_submit_failures cfg0 transport_down ada (fresh (Some empty_table))
                    eq_refl)
             (Returning [1])
             (set_db (Some (inserted empty_table 1000 ada)) (fresh (Some empty_table)))
             "Invalid login: 535 Username and Password not accepted");
      reflexivity.
Defined.

(** C3. A create request in which name, email or prompt is missing or the
    empty string is answered 400 with a [{message}] body, and the state is
    left as it was: no row is inserted and no mail is handed to the
    transport. *)
Theorem post_submit_missing_field (cfg : Config) (e : Env) (req : ReqBody) (s : State) :
  missing_or_empty (name req) || missing_or_empty (email req)
    || missing_or_empty (prompt req) = true ->
  post_submit cfg e req s =
    (Ret {| status := 400; body := Json [("message", "Missing required fields.")] |}, s).
Proof.
  intros H. apply post_submit_invalid. unfold valid.
  rewrite !orb_true_iff in H.
  destruct H as [[H|H]|H]; apply missing_or_empty_falsy in H; rewrite H;
    by rewrite ?andb_false_r.
Qed.

Lemma post_submit_missing_field_witness :
  post_submit cfg0 healthy
    {| name := JStr EmptyString; email := JStr "ada@x.com";
       about := JUndefined; prompt := JStr "hi" |}
    (fresh (Some empty_table)) =
    (Ret {| status := 400; body := Json [("message", "Missing required fields.")] |},
     fresh (Some empty_table)).
Proof.
  apply (post_submit_missing_field cfg0 healthy
           {| name := JStr EmptyString; email := JStr "ada@x.com";
              about := JUndefined; prompt := JStr "hi" |}
           (fresh (Some empty_table))).
  reflexivity.
Defined.

(** * [GET /submissions] *)

#[global] Instance date_desc_total : Total date_desc.
Proof. intros r1 r2. unfold date_desc. lia. Qed.

#[global] Instance date_desc_trans : Transitive date_desc.
Proof. intros r1 r2 r3. unfold date_desc. lia. Qed.

Lemma order_by_date_desc_sorted (l : list Submission.t) :
  StronglySorted date_desc (order_by_date_desc l).
Proof. apply StronglySorted_merge_sort; apply _. Qed.

Lemma order_by_date_desc_perm (l : list Submission.t) : order_by_date_desc l ≡ₚ l.
Proof. apply merge_sort_Permutation. Qed.

(** The select on an existing table of a store that answers. *)
Lemma select_accepted (e : Env) (s : State) (t : Table) :
  connect_fault e = None -> query_fault e = None -> db s = Some t ->
  pool_query e SelectOrderByDateDesc s = (Ret (Rows (order_by_date_desc (rows t))), s).
Proof.
  intros Hc Hq Hd. rewrite pool_query_run, Hc, Hq, exec_sql_select, Hd.
  rewrite <- Hd. by destruct s.
Qed.

Lemma select_rejected (e : Env) (s : State) :
  store_fails e s = true ->
  exists err, pool_query e SelectOrderByDateDesc s = (Throw err, s).
Proof.
  unfold store_fails. rewrite !orb_true_iff, !bool_decide_eq_true.
  intros H. rewrite pool_query_run.
  destruct (connect_fault e) as [m|]; [by eexists|].
  destruct (query_fault e) as [m|]; [by eexists|].
  destruct H as [[[? [=]]|[? [=]]]|Hd].
  rewrite exec_sql_select, Hd. eexists. f_equal. rewrite <- Hd. by destruct s.
Qed.

Lemma get_submissions_returns (e : Env) (s s1 : State) (rs : list Submission.t) :
  pool_query e SelectOrderByDateDesc s = (Ret (Rows rs), s1) ->
  get_submissions e s = (Ret {| status := 200; body := JsonRows rs |}, s1).
Proof. intros H. unfold get_submissions. unfold_M. by rewrite H. Qed.

(** The select throws: the handler puts the error's own message in the
    body and writes nothing to the console. *)
Lemma get_submissions_throws (e : Env) (s s1 : State) (err : JsError) :
  pool_query e SelectOrderByDateDesc s = (Throw err, s1) ->
  get_submissions e s =
    (Ret {| status := 500; body := Json [("error", message err)] |}, s1).
Proof. intros H. unfold get_submissions. unfold_M. by rewrite H. Qed.

(** C4. When the store answers, the list operation returns every persisted
    record (the answer is a permutation of the table, so none is dropped,
    repeated or cut off by a limit), most recent first: each record's
    [submission_date] is at least that of every record after it. *)
Theorem get_submissions_all_sorted (e : Env) (s : State) (t : Table) :
  connect_fault e = None -> query_fault e = None -> db s = Some t ->
  exists rs,
    get_submissions e s = (Ret {| status := 200; body := JsonRows rs |}, s)
    /\ Permutation rs (rows t)
    /\ length rs = length (rows t)
    /\ StronglySorted
         (fun r1 r2 => Submission.submission_date r2 <= Submission.submission_date r1) rs.
Proof.
  intros Hc Hq Hd. exists (order_by_date_desc (rows t)).
  split; [by apply get_submissions_returns, select_accepted|].
  split; [apply order_by_date_desc_perm|].
  split; [by rewrite order_by_date_desc_perm|].
  apply order_by_date_desc_sorted.
Qed.

Lemma get_submissions_all_sorted_witness :
  exists rs,
    get_submissions healthy (fresh (Some three_rows)) =
      (Ret {| status := 200; body := JsonRows rs |}, fresh (Some three_rows))
    /\ Permutation rs [ada_row 1 5; ada_row 2 9; ada_row 3 7]
    /\ length rs = 3%nat
    /\ StronglySorted
         (fun r1 r2 => Submission.submission_date r2 <= Submission.submission_date r1) rs.
Proof.
  apply (get_submissions_all_sorted healthy (fresh (Some three_rows)) three_rows);
    reflexivity.
Defined.

Example get_submissions_three_rows :
  get_submissions healthy (fresh (Some three_rows)) =
    (Ret {| status := 200;
            body := JsonRows [ada_row 2 9; ada_row 3 7; ada_row 1 5] |},
     fresh (Some three_rows)).
Proof. vm_compute. reflexivity. Qed.

(** C10. With an empty submissions table and a store that answers, the
    list operation answers 200 with the empty array. *)
Theorem get_submissions_empty (e : Env) (s : State) (t : Table) :
  connect_fault e = None -> query_fault e = None ->
  db s = Some t -> rows t = [] ->
  get_submissions e s = (Ret {| status := 200; body := JsonRows [] |}, s).
Proof.
  intros Hc Hq Hd Hr.
  rewrite (get_submissions_returns e s s (order_by_date_desc (rows t)))
    by by apply select_accepted.
  by rewrite Hr.
Qed.

Lemma get_submissions_empty_witness :
  get_submissions healthy (fresh (Some empty_table)) =
    (Ret {| status := 200; body := JsonRows [] |}, fresh (Some empty_table)).
Proof.
  apply (get_submissions_empty healthy (fresh (Some empty_table)) empty_table);
    reflexivity.
Defined.

(** * What a failure shows the caller *)

(** Every 500 of [POST /submit] carries the one fixed message, whatever
    the error was, and the error itself goes to the console. *)
Lemma post_submit_failure_generic (cfg : Config) (e : Env) (req : ReqBody) (s : State) :
  valid req = true ->
  exists resp s',
    post_submit cfg e req s = (Ret resp, s')
    /\ (resp = response_ok
        \/ resp = response_500
           /\ exists err s0, s' = add_log (submission_error_line err) s0).
Proof.
  intros Hv.
  destruct (pool_query e (insert_of req) s) as [[r|err] s1] eqn:Hq.
  - destruct (insert_returns_inv e req s s1 r Hv Hq) as (t & Hd & -> & ->).
    destruct (prompt req) as [| |b|n|p] eqn:Hp.
    1-4: destruct (post_submit_prompt_not_string cfg e req s _ _ _ Hv Hq) as [err ->];
      [by rewrite Hp | eexists _, _; split; [reflexivity|]; right; eauto].
    rewrite (post_submit_insert_returns cfg e req s _ _ _ p Hv Hq Hp).
    destruct (smtp_fault e); eexists _, _; (split; [reflexivity|]); eauto.
  - rewrite (post_submit_insert_throws cfg e req s s1 err Hv Hq).
    eexists _, _. split; [reflexivity|]. eauto.
Qed.

(** C5, on [GET /submissions] with the store unreachable: the body of the
    500 is [{error: err.message}], the driver's own message, and nothing is
    written to the console; the claim has the detail withheld from the
    caller and logged. *)
Theorem get_submissions_reveals_error_detail :
  get_submissions store_down (fresh (Some empty_table)) =
    (Ret {| status := 500;
            body := Json [("error", "connect ECONNREFUSED 127.0.0.1:5432")] |},
     fresh (Some empty_table))
  /\ console (get_submissions store_down (fresh (Some empty_table))).2 = [].
Proof. split; reflexivity. Qed.

(** * The notification mail *)

(** Looks for the occurrence behind the literal [pre], skipping the parts
    of the template before it. *)
Lemma contains_prefix3 (a b c rest : string) :
  contains (a +:+ b +:+ c +:+ rest) (a +:+ b +:+ c).
Proof. exists EmptyString, rest. by rewrite append_nil, !append_assoc. Qed.

Ltac find_occurrence :=
  first [ apply contains_prefix3
        | apply contains_refl_app
        | apply contains_app_r; find_occurrence ].

(** Once the insert of a valid request with a string prompt has returned,
    the composed mail is handed to the transport exactly once and the new
    row is in the table, whatever the transport then answers. *)
Lemma post_submit_effects (cfg : Config) (e : Env) (req : ReqBody)
    (s s1 : State) (p : string) (r : QueryResult) :
  valid req = true ->
  prompt req = JStr p ->
  pool_query e (insert_of req) s = (Ret r, s1) ->
  exists t,
    db s = Some t
    /\ stored (post_submit cfg e req s).2 = stored s ++ [new_row t (now e) req]
    /\ mail_attempts (post_submit cfg e req s).2 = mail_attempts s ++ [mail_of cfg req p].
Proof.
  intros Hv Hp Hq.
  destruct (insert_returns_inv e req s s1 r Hv Hq) as (t & Hd & -> & ->).
  rewrite (post_submit_insert_returns cfg e req s _ _ _ p Hv Hq Hp).
  exists t. split; [done|].
  assert (stored s = rows t) as -> by (unfold stored; by rewrite Hd).
  by destruct (smtp_fault e).
Qed.

(** C6. For a submission whose name, email and prompt are non-empty
    strings and whose insert returned, the one mail handed to the transport
    is addressed to the configured operator address, has the submitter's
    email as reply-to and the submitter's name as display name of the
    sender, and its HTML body shows name, email, about (or its label) and
    the prompt with every line feed replaced by [<br>]: no line feed is
    left in it, and a prompt of two lines [u], [v] appears as
    [u<br>v]. *)
Theorem notification_mail (cfg : Config) (e : Env) (req : ReqBody)
    (s s1 : State) (n em p : string) (r : QueryResult) :
  name req = JStr n -> email req = JStr em -> prompt req = JStr p ->
  is_empty n = false -> is_empty em = false -> is_empty p = false ->
  pool_query e (insert_of req) s = (Ret r, s1) ->
  let m := mail_of cfg req p in
  mail_attempts (post_submit cfg e req s).2 = mail_attempts s ++ [m]
  /\ to m = EMAIL_RECEIVER cfg
  /\ replyTo m = JStr em
  /\ from m = n +:+ " <" +:+ env_to_string (EMAIL_USER cfg) +:+ ">"
  /\ contains (html m) ("<p><strong>Name:</strong> " +:+ n +:+ "</p>")
  /\ contains (html m) ("<p><strong>Email:</strong> " +:+ em +:+ "</p>")
  /\ contains (html m)
       ("<p><strong>Subject (About):</strong> "
        +:+ to_string (js_or (about req) (JStr "Not specified")) +:+ "</p>")
  /\ contains (html m) ("<p>" +:+ replace_newlines p +:+ "</p>")
  /\ no_newline (replace_newlines p) = true
  /\ (forall u v, p = u +:+ nl +:+ v ->
        no_newline u = true -> no_newline v = true ->
        contains (html m) (u +:+ "<br>" +:+ v)).
Proof.
  intros Hn Hem Hp Hne1 Hne2 Hne3 Hq m.
  assert (valid req = true) as Hv.
  { unfold valid. rewrite Hn, Hem, Hp. cbn. by rewrite Hne1, Hne2, Hne3. }
  destruct (post_submit_effects cfg e req s s1 p r Hv Hp Hq) as (t & _ & _ & Hm).
  split; [exact Hm|].
  subst m. unfold mail_of, mailOptions. cbn [to replyTo from html].
  rewrite Hn, Hem. cbn [to_string].
  do 3 (split; [reflexivity|]).
  split; [find_occurrence|].
  split; [find_occurrence|].
  split; [find_occurrence|].
  split; [find_occurrence|].
  split; [apply no_newline_replace|].
  intros u v -> Hu Hv'. rewrite replace_newlines_two_lines by done.
  find_occurrence.
Qed.

Lemma notification_mail_witness :
  let m := mail_of cfg0 ada ("Let's talk" +:+ nl +:+ "Thanks") in
  mail_attempts (post_submit cfg0 healthy ada (fresh (Some empty_table))).2 = [] ++ [m]
  /\ to m = Some "owner@example.com"
  /\ replyTo m = JStr "ada@x.com"
  /\ from m = "Ada" +:+ " <" +:+ "site@gmail.com" +:+ ">"
  /\ contains (html m) ("<p><strong>Name:</strong> " +:+ "Ada" +:+ "</p>")
  /\ contains (html m) ("<p><strong>Email:</strong> " +:+ "ada@x.com" +:+ "</p>")
  /\ contains (html m)
       ("<p><strong>Subject (About):</strong> " +:+ "Hiring" +:+ "</p>")
  /\ contains (html m)
       ("<p>" +:+ replace_newlines ("Let's talk" +:+ nl +:+ "Thanks") +:+ "</p>")
  /\ no_newline (replace_newlines ("Let's talk" +:+ nl +:+ "Thanks")) = true
  /\ (forall u v, "Let's talk" +:+ nl +:+ "Thanks" = u +:+ nl +:+ v ->
        no_newline u = true -> no_newline v = true ->
        contains (html m) (u +:+ "<br>" +:+ v)).
Proof.
  apply (notification_mail cfg0 healthy ada (fresh (Some empty_table))
           (set_db (Some (inserted empty_table 1000 ada)) (fresh (Some empty_table)))
           "Ada" "ada@x.com" ("Let's talk" +:+ nl +:+ "Thanks") (Returning [1]));
    reflexivity.
Defined.

(** The scenario of the specification, evaluated. *)
Example ada_mail_body :
  includes (html (mail_of cfg0 ada ("Let's talk" +:+ nl +:+ "Thanks")))
           "Let's talk<br>Thanks" = true.
Proof. vm_compute. reflexivity. Qed.

(** C9. A valid request whose about is absent or the empty string: the
    subject of the mail reads 'General', its body shows 'Not specified'
    for the about field, and the row that is stored has about as it was
    supplied (NULL when absent, the empty string when empty), not either
    label. *)
Theorem about_absent_or_empty (cfg : Config) (e : Env) (req : ReqBody)
    (s s1 : State) (p : string) (r : QueryResult) :
  truthy (name req) = true -> truthy (email req) = true ->
  prompt req = JStr p -> is_empty p = false ->
  about req = JUndefined \/ about req = JStr EmptyString ->
  pool_query e (insert_of req) s = (Ret r, s1) ->
  let m := mail_of cfg req p in
  exists t row,
    mail_attempts (post_submit cfg e req s).2 = mail_attempts s ++ [m]
    /\ subject m = "New Portfolio Inquiry: General from " +:+ to_string (name req)
    /\ contains (html m) "<p><strong>Subject (About):</strong> Not specified</p>"
    /\ db s = Some t
    /\ stored (post_submit cfg e req s).2 = stored s ++ [row]
    /\ Submission.about row
       = match about req with JUndefined => None | _ => Some EmptyString end
    /\ Submission.about row <> Some "General"
    /\ Submission.about row <> Some "Not specified".
Proof.
  intros Hn Hem Hp Hne Ha Hq m.
  assert (valid req = true) as Hv.
  { unfold valid. rewrite Hn, Hem, Hp. cbn. by rewrite Hne. }
  destruct (post_submit_effects cfg e req s s1 p r Hv Hp Hq) as (t & Hd & Hs & Hm).
  exists t, (new_row t (now e) req).
  split; [exact Hm|].
  subst m. unfold mail_of, mailOptions, new_row. cbn [subject html Submission.about].
  assert (js_or (about req) (JStr "General") = JStr "General"
          /\ js_or (about req) (JStr "Not specified") = JStr "Not specified")
    as [-> ->] by (by destruct Ha as [-> | ->]).
  cbn [to_string].
  split; [reflexivity|].
  split; [find_occurrence|].
  do 2 (split; [done|]).
  by destruct Ha as [-> | ->].
Qed.

Lemma about_absent_or_empty_witness :
  let m := mail_of cfg0 ada_no_about "hi" in
  exists t row,
    mail_attempts (post_submit cfg0 healthy ada_no_about (fresh (Some empty_table))).2
      = [] ++ [m]
    /\ subject m = "New Portfolio Inquiry: General from " +:+ "Ada"
    /\ contains (html m) "<p><strong>Subject (About):</strong> Not specified</p>"
    /\ db (fresh (Some empty_table)) = Some t
    /\ stored (post_submit cfg0 healthy ada_no_about (fresh (Some empty_table))).2
       = [] ++ [row]
    /\ Submission.about row = None
    /\ Submission.about row <> Some "General"
    /\ Submission.about row <> Some "Not specified".
Proof.
  apply (about_absent_or_empty cfg0 healthy ada_no_about (fresh (Some empty_table))
           (set_db (Some (inserted empty_table 1000 ada_no_about))
                   (fresh (Some empty_table)))
           "hi" (Returning [1]));
    first [ reflexivity | left; reflexivity ].
Defined.

(** * Startup *)

(** The [try] block of [initializeDatabase] always throws: without a
    connection at [pool.connect()], and with one at [client.query], where
    the store rejects the statement, if for no other reason then for its
    text.  In the second case the client stays checked out. *)
Lemma ensure_table_run (e : Env) (s : State) :
  ensure_table e s =
    (Throw (init_error e),
     match connect_fault e with
     | Some _ => s
     | None => set_pool_out (S (pool_out s)) s
     end).
Proof.
  unfold ensure_table, pool_connect, client_query, client_release, init_error.
  unfold_M.
  destruct (connect_fault e); [done|].
  destruct (query_fault e); cbn; [done|].
  rewrite exec_sql_create. by destruct s.
Qed.

Lemma initializeDatabase_catches (e : Env) (s s0 : State) (err : JsError) :
  ensure_table e s = (Throw err, s0) ->
  initializeDatabase e s = (Ret tt, add_log (init_error_line err) s0).
Proof. intros H. unfold initializeDatabase. unfold_M. by rewrite H. Qed.

Lemma initializeDatabase_run (e : Env) (s : State) :
  initializeDatabase e s =
    (Ret tt,
     add_log (init_error_line (init_error e))
       match connect_fault e with
       | Some _ => s
       | None => set_pool_out (S (pool_out s)) s
       end).
Proof. apply initializeDatabase_catches, ensure_table_run. Qed.

(** [initializeDatabase] never throws. *)
Lemma initializeDatabase_returns (e : Env) (s : State) :
  exists s1, initializeDatabase e s = (Ret tt, s1).
Proof. rewrite initializeDatabase_run. by eexists. Qed.

(** When the statement throws after the client was checked out, the
    [catch] is reached without [client.release()]: one more client is out
    of the pool than before. *)
Lemma initializeDatabase_keeps_client (e : Env) (s : State) :
  connect_fault e = None ->
  pool_out (initializeDatabase e s).2 = S (pool_out s).
Proof. intros Hc. by rewrite initializeDatabase_run, Hc. Qed.

(** C7, on [initializeDatabase] when the store rejects the statement: the
    client checked out by [pool.connect()] is still out of the pool when
    the function is done (the pool had none out before, and has one out
    after); the claim has it returned on every exit path. *)
Theorem initializeDatabase_leaks_client_on_query_error :
  pool_out (fresh None) = 0%nat
  /\ initializeDatabase query_rejected (fresh None) =
       (Ret tt,
        {| db := None; pool_out := 1; mail_attempts := []; delivered := [];
           console := [init_error_line (Error "permission denied for schema public")];
           listening := false |}).
Proof. split; reflexivity. Qed.

(** The server listens first; the initialization goes on afterwards. *)
Lemma startup_run (cfg : Config) (e : Env) (s : State) :
  startup cfg e s =
    if port_out_of_range (port cfg)
    then (Throw (RangeError (bad_port_message (port cfg))), s)
    else
      match listen_fault e with
      | Some msg => (Throw (Error msg), s)
      | None =>
          initializeDatabase e (add_log (listening_line cfg) (set_listening true s))
      end.
Proof.
  unfold startup, listen. unfold_M.
  destruct (port_out_of_range (port cfg)); [done|]. by destruct (listen_fault e).
Qed.

Lemma startup_listening (cfg : Config) (e : Env) (s : State) :
  listen_succeeds cfg e = true ->
  startup cfg e s
  = initializeDatabase e (add_log (listening_line cfg) (set_listening true s)).
Proof.
  unfold listen_succeeds. rewrite andb_true_iff, negb_true_iff, bool_decide_eq_true.
  intros [Hp Hl]. by rewrite startup_run, Hp, Hl.
Qed.

(** With the store failing, both storage routes answer 500. *)
Lemma storage_routes_fail (cfg : Config) (e : Env) (s : State) (req : ReqBody) :
  store_fails e s = true ->
  valid req = true ->
  (exists s', post_submit cfg e req s = (Ret response_500, s'))
  /\ (exists msg,
        get_submissions e s =
          (Ret {| status := 500; body := Json [("error", msg)] |}, s)).
Proof.
  intros Hf Hv. split.
  - destruct (insert_rejected e req s Hf) as [err Hq].
    eexists. by apply post_submit_insert_throws.
  - destruct (select_rejected e s Hf) as [err Hq].
    eexists. by apply get_submissions_throws.
Qed.

(** The static routes never look at the store. *)
Lemma static_routes_served (e : Env) (s : State) :
  (file_exists e "frontend/index.html" = true ->
   get_index e s = (Ret {| status := 200; body := File "frontend/index.html" |}, s))
  /\ (file_exists e "submissions.html" = true ->
      get_submissions_html e s =
        (Ret {| status := 200; body := File "submissions.html" |}, s)).
Proof.
  unfold get_index, get_submissions_html, sendFile. split; by intros ->.
Qed.

Lemma text_request_fields (req : ReqBody) :
  text_request req = true ->
  valid req = true /\ exists p, prompt req = JStr p.
Proof.
  destruct req as [[| | | |n] [| | | |em] a [| | | |p]]; try done.
  unfold text_request, valid. cbn [name email about prompt truthy].
  destruct a; try done; intros ->; eauto.
Qed.

(** With the store answering and the table there, both storage routes
    succeed: the list with the rows, the create, for a request of text
    fields and a transport that accepts, with the 200. *)
Lemma storage_routes_succeed (cfg : Config) (e : Env) (s : State) :
  store_fails e s = false ->
  (forall req,
     text_request req = true -> smtp_fault e = None ->
     exists s', post_submit cfg e req s = (Ret response_ok, s'))
  /\ (exists rs,
        get_submissions e s = (Ret {| status := 200; body := JsonRows rs |}, s)
        /\ Permutation rs (stored s)).
Proof.
  intros (Hc & Hq & t & Hd)%store_fails_false. split.
  - intros req (Hv & p & Hp)%text_request_fields Hs.
    pose proof (insert_accepted e req s t Hv Hc Hq Hd) as Hi.
    rewrite (post_submit_insert_returns cfg e req s _ _ _ p Hv Hi Hp), Hs.
    by eexists.
  - exists (order_by_date_desc (rows t)). split.
    + by apply get_submissions_returns, select_accepted.
    + unfold stored. rewrite Hd. apply order_by_date_desc_perm.
Qed.

(** C8, as amended.  When the [try] block of [initializeDatabase] throws,
    the function itself returns, with the error as the last line of the
    console; and when [app.listen] succeeds, [startup] returns too, with
    the server listening and the database as it was.  Afterwards both
    static pages are served whatever the store does; the storage routes
    answer 500 in every state and environment in which the store fails, and
    succeed in every one in which it answers and the table exists:
    [initializeDatabase] leaves no mark that would fail them. *)
Theorem startup_failure_swallowed (cfg : Config) (e : Env) (s s0 : State)
    (err : JsError) :
  ensure_table e s = (Throw err, s0) ->
  listen_succeeds cfg e = true ->
  exists si s1,
    initializeDatabase e s = (Ret tt, si)
    /\ last (console si) = Some (init_error_line err)
    /\ startup cfg e s = (Ret tt, s1)
    /\ listening s1 = true
    /\ last (console s1) = Some (init_error_line err)
    /\ db s1 = db s
    /\ (forall e' s2 req,
          store_fails e' s2 = true -> valid req = true ->
          (exists s3, post_submit cfg e' req s2 = (Ret response_500, s3))
          /\ (exists msg,
                get_submissions e' s2 =
                  (Ret {| status := 500; body := Json [("error", msg)] |}, s2)))
    /\ (forall e' s2 req,
          store_fails e' s2 = false ->
          text_request req = true -> smtp_fault e' = None ->
          exists s3, post_submit cfg e' req s2 = (Ret response_ok, s3))
    /\ (forall e' s2,
          store_fails e' s2 = false ->
          exists rs,
            get_submissions e' s2
            = (Ret {| status := 200; body := JsonRows rs |}, s2)
            /\ Permutation rs (stored s2))
    /\ (forall e' s2,
          file_exists e' "frontend/index.html" = true ->
          get_index e' s2 =
            (Ret {| status := 200; body := File "frontend/index.html" |}, s2))
    /\ (forall e' s2,
          file_exists e' "submissions.html" = true ->
          get_submissions_html e' s2 =
            (Ret {| status := 200; body := File "submissions.html" |}, s2)).
Proof.
  intros H Hl.
  assert (err = init_error e) as ->
    by (rewrite ensure_table_run in H; congruence).
  eexists _, _.
  split; [by apply initializeDatabase_catches|].
  split; [cbn; apply last_snoc|].
  split; [by rewrite startup_listening, initializeDatabase_run|].
  split; [by destruct (connect_fault e)|].
  split; [cbn; apply last_snoc|].
  split; [by destruct (connect_fault e)|].
  split; [intros e' s2 req; apply storage_routes_fail|].
  split; [intros e' s2 req Hf; by apply storage_routes_succeed|].
  split; [intros e' s2 Hf; by apply storage_routes_succeed|].
  split; intros e' s2; apply static_routes_served.
Qed.

Lemma startup_failure_swallowed_witness :
  exists si s1,
    initializeDatabase store_down (fresh (Some empty_table)) = (Ret tt, si)
    /\ last (console si)
       = Some (init_error_line (Error "connect ECONNREFUSED 127.0.0.1:5432"))
    /\ startup cfg0 store_down (fresh (Some empty_table)) = (Ret tt, s1)
    /\ listening s1 = true
    /\ last (console s1)
       = Some (init_error_line (Error "connect ECONNREFUSED 127.0.0.1:5432"))
    /\ db s1 = Some empty_table
    /\ (exists s3, post_submit cfg0 store_down ada s1 = (Ret response_500, s3))
    /\ (exists msg,
          get_submissions store_down s1 =
            (Ret {| status := 500; body := Json [("error", msg)] |}, s1))
    /\ (exists s3, post_submit cfg0 healthy ada s1 = (Ret response_ok, s3))
    /\ (exists rs,
          get_submissions healthy s1
          = (Ret {| status := 200; body := JsonRows rs |}, s1)
          /\ Permutation rs (stored s1))
    /\ get_index store_down s1 =
         (Ret {| status := 200; body := File "frontend/index.html" |}, s1)
    /\ get_submissions_html store_down s1 =
         (Ret {| status := 200; body := File "submissions.html" |}, s1).
Proof.
  destruct (startup_failure_swallowed cfg0 store_down
              (fresh (Some empty_table)) (fresh (Some empty_table))
              (Error "connect ECONNREFUSED 127.0.0.1:5432") eq_refl eq_refl)
    as (si & s1 & Hi & Hli & Hs & Hl & Hc & Hd & Hf & Hp & Hg & Hx & Hh).
  assert (store_fails healthy s1 = false) as Hok
    by (unfold store_fails; by rewrite Hd).
  exists si, s1. do 6 (split; [assumption|]).
  split; [apply (Hf store_down s1 ada); reflexivity|].
  split; [apply (Hf store_down s1 ada); reflexivity|].
  split; [apply (Hp healthy s1 ada Hok); reflexivity|].
  split; [apply (Hg healthy s1 Hok)|].
  split; [apply (Hx store_down s1); reflexivity|].
  apply (Hh store_down s1). reflexivity.
Defined.

(** A [PORT] of 70000: [app.listen] throws and nothing else happens. *)
Example startup_bad_port :
  startup cfg_bad_port healthy (fresh None)
  = (Throw (RangeError
       "options.port should be >= 0 and < 65536. Received type string ('70000')."),
     fresh None).
Proof. reflexivity. Qed.

(** C8 as stated fails: the store is unreachable at startup, so that
    initialization fails, and is reachable when the requests arrive; the
    table exists.  Both storage routes then succeed. *)
Lemma startup_failure_then_storage_succeeds :
  exists s1 s2,
    ensure_table store_down (fresh (Some empty_table)) =
      (Throw (Error "connect ECONNREFUSED 127.0.0.1:5432"), fresh (Some empty_table))
    /\ startup cfg0 store_down (fresh (Some empty_table)) = (Ret tt, s1)
    /\ post_submit cfg0 healthy ada s1 = (Ret response_ok, s2)
    /\ get_submissions healthy s2 =
         (Ret {| status := 200; body := JsonRows [ada_row 1 1000] |}, s2).
Proof. eexists _, _. repeat split; vm_compute; reflexivity. Qed.

(** * More on the handlers *)

Lemma store_fails_true_or_table (e : Env) (s : State) :
  store_fails e s = true
  \/ (store_fails e s = false /\ connect_fault e = None /\ query_fault e = None
      /\ exists t, db s = Some t).
Proof.
  destruct (store_fails e s) eqn:H; [by left|right].
  split; [done|]. by apply store_fails_false.
Qed.

(** Every call of the handler is one of the five runs. *)
Lemma post_submit_run (cfg : Config) (e : Env) (req : ReqBody) (s : State) :
  submit_run cfg e req s (post_submit cfg e req s).
Proof.
  destruct (valid req) eqn:Hv.
  2: { rewrite post_submit_invalid by done. by constructor. }
  destruct (store_fails_true_or_table e s) as [Hf|(Hf & Hc & Hq & t & Hd)].
  - destruct (insert_rejected e req s Hf) as [err He].
    rewrite (post_submit_insert_throws cfg e req s s err Hv He).
    by constructor.
  - pose proof (insert_accepted e req s t Hv Hc Hq Hd) as Hi.
    destruct (prompt req) as [| |b|n|p] eqn:Hp.
    1-4: destruct (post_submit_prompt_not_string cfg e req s _ _ _ Hv Hi) as [err ->];
      [by rewrite Hp | apply run_prompt_not_text; try done; by rewrite Hp].
    rewrite (post_submit_insert_returns cfg e req s _ _ _ p Hv Hi Hp).
    destruct (smtp_fault e) as [msg|] eqn:Hs.
    + by apply run_transport_rejects.
    + by apply run_accepted.
Qed.

Lemma stored_of_table (s : State) (t : Table) : db s = Some t -> stored s = rows t.
Proof. unfold stored. by intros ->. Qed.

(** X1. What escapes the handler of [POST /submit]: with a parsed body,
    nothing, it returns one of three answers (the 400, the 500, the 200
    with their fixed messages); with [req.body] undefined, the TypeError of
    the destructuring, which stands before the [try], and the state is
    untouched. *)
Theorem submit_handler_outcomes (cfg : Config) (e : Env) (s : State) :
  (forall req,
     exists resp s',
       submit_handler cfg e (Some req) s = (Ret resp, s')
       /\ (resp = {| status := 400;
                     body := Json [("message", "Missing required fields.")] |}
           \/ resp = {| status := 500; body := Json [("message", failure_message)] |}
           \/ resp = {| status := 200; body := Json [("message", success_message)] |}))
  /\ (exists err,
        submit_handler cfg e None s = (Throw err, s)
        /\ err_name err = "TypeError").
Proof.
  split.
  - intros req. cbn [submit_handler].
    destruct (post_submit_run cfg e req s); eexists _, _; (split; [reflexivity|]); auto.
  - by eexists.
Qed.

(** X2. The answer is the 400 exactly when name, email or prompt is falsy:
    absent, [null], [false], the number 0 or the empty string. *)
Theorem post_submit_400_iff_falsy (cfg : Config) (e : Env) (req : ReqBody) (s : State) :
  (post_submit cfg e req s).1
    = Ret {| status := 400; body := Json [("message", "Missing required fields.")] |}
  <-> truthy (name req) && truthy (email req) && truthy (prompt req) = false.
Proof.
  fold (valid req).
  destruct (post_submit_run cfg e req s); cbn [fst];
    unfold response_400, response_500, response_ok;
    split; intros H'; first [ done | congruence ].
Qed.

(** X3. Both storage routes leave the pool as they found it: whatever the
    store or the transport does, no client stays checked out. *)
Theorem handlers_return_clients (cfg : Config) (e : Env) (req : ReqBody) (s : State) :
  pool_out (post_submit cfg e req s).2 = pool_out s
  /\ pool_out (get_submissions e s).2 = pool_out s.
Proof.
  split.
  - by destruct (post_submit_run cfg e req s).
  - unfold get_submissions. unfold_M.
    pose proof (pool_query_pool_out e SelectOrderByDateDesc s) as H.
    by destruct (pool_query e SelectOrderByDateDesc s) as [[r|err] s1].
Qed.

(** X4. A successful answer is never given without the record and the
    mail: when [POST /submit] answers 200, the table has exactly the new
    row more and the transport has accepted exactly the composed mail. *)
Theorem post_submit_ok_means_stored_and_delivered (cfg : Config) (e : Env)
    (req : ReqBody) (s : State) (resp : Response) (s' : State) :
  post_submit cfg e req s = (Ret resp, s') ->
  status resp = 200 ->
  exists t p,
    db s = Some t
    /\ prompt req = JStr p
    /\ stored s' = stored s ++ [new_row t (now e) req]
    /\ mail_attempts s' = mail_attempts s ++ [mail_of cfg req p]
    /\ delivered s' = delivered s ++ [mail_of cfg req p].
Proof.
  intros Hrun Hst. pose proof (post_submit_run cfg e req s) as H.
  rewrite Hrun in H. inversion H; subst; try discriminate Hst.
  exists t, p. rewrite (stored_of_table s t) by done. by repeat split.
Qed.

Lemma post_submit_ok_means_stored_and_delivered_witness :
  exists t p,
    db (fresh (Some empty_table)) = Some t
    /\ prompt ada = JStr p
    /\ stored (post_submit cfg0 healthy ada (fresh (Some empty_table))).2
       = [] ++ [new_row t 1000 ada]
    /\ mail_attempts (post_submit cfg0 healthy ada (fresh (Some empty_table))).2
       = [] ++ [mail_of cfg0 ada p]
    /\ delivered (post_submit cfg0 healthy ada (fresh (Some empty_table))).2
       = [] ++ [mail_of cfg0 ada p].
Proof.
  apply (post_submit_ok_means_stored_and_delivered cfg0 healthy ada
           (fresh (Some empty_table)) response_ok
           (post_submit cfg0 healthy ada (fresh (Some empty_table))).2);
    reflexivity.
Defined.

(** X5. The mail comes after the record: one call of [POST /submit] hands
    at most one mail to the transport, and only when the row of the request
    has been inserted. *)
Theorem mail_only_after_insert (cfg : Config) (e : Env) (req : ReqBody) (s : State) :
  mail_attempts (post_submit cfg e req s).2 = mail_attempts s
  \/ exists t p,
       db s = Some t
       /\ prompt req = JStr p
       /\ stored (post_submit cfg e req s).2 = stored s ++ [new_row t (now e) req]
       /\ mail_attempts (post_submit cfg e req s).2
          = mail_attempts s ++ [mail_of cfg req p].
Proof.
  destruct (post_submit_run cfg e req s) as [| | |t p msg Hv Hf Hd Hp Hs|t p Hv Hf Hd Hp Hs];
    [by left..| |]; right; exists t, p;
    rewrite (stored_of_table s t) by done; by repeat split.
Qed.

(** X6. A prompt that is present but not a string (a number, [true]) gets
    past the presence check: with the store answering, its row is inserted,
    then [prompt.replace] throws, no mail is handed to the transport and
    the answer is 500. *)
Theorem post_submit_prompt_not_text (cfg : Config) (e : Env) (req : ReqBody)
    (s : State) (t : Table) :
  valid req = true ->
  (forall p, prompt req <> JStr p) ->
  connect_fault e = None -> query_fault e = None -> db s = Some t ->
  exists s',
    post_submit cfg e req s = (Ret response_500, s')
    /\ stored s' = stored s ++ [new_row t (now e) req]
    /\ mail_attempts s' = mail_attempts s.
Proof.
  intros Hv Hp Hc Hq Hd.
  pose proof (insert_accepted e req s t Hv Hc Hq Hd) as Hi.
  destruct (post_submit_prompt_not_string cfg e req s _ _ _ Hv Hi Hp) as [err ->].
  eexists. split; [reflexivity|]. by rewrite (stored_of_table s t).
Qed.

Lemma post_submit_prompt_not_text_witness :
  exists s',
    post_submit cfg0 healthy numeric_prompt (fresh (Some empty_table))
      = (Ret response_500, s')
    /\ stored s' = [] ++ [new_row empty_table 1000 numeric_prompt]
    /\ mail_attempts s' = [].
Proof.
  apply (post_submit_prompt_not_text cfg0 healthy numeric_prompt
           (fresh (Some empty_table)) empty_table);
    first [ reflexivity | intros p; discriminate ].
Defined.

(** X7. [GET /submissions] only reads: it never throws and leaves the
    whole state (table, pool, mail, console) as it was; it answers 200
    when the store answers and the table exists, and 500 otherwise. *)
Theorem get_submissions_read_only (e : Env) (s : State) :
  exists resp,
    get_submissions e s = (Ret resp, s)
    /\ (store_fails e s = false /\ status resp = 200
        \/ store_fails e s = true /\ status resp = 500).
Proof.
  destruct (store_fails_true_or_table e s) as [Hf|(Hf & Hc & Hq & t & Hd)].
  - destruct (select_rejected e s Hf) as [err Hs].
    rewrite (get_submissions_throws e s s err Hs). eexists. split; [reflexivity|].
    by right.
  - rewrite (get_submissions_returns e s s _ (select_accepted e s t Hc Hq Hd)).
    eexists. split; [reflexivity|]. by left.
Qed.

(** X8. For a request of text fields (name, email and prompt non-empty
    strings, about absent or a string), the answer is the 200 exactly when
    the store accepts the insert and the transport accepts the mail. *)
Theorem post_submit_ok_iff (cfg : Config) (e : Env) (req : ReqBody) (s : State) :
  text_request req = true ->
  (post_submit cfg e req s).1 = Ret response_ok
  <-> store_fails e s = false /\ smtp_fault e = None.
Proof.
  intros (Hv & p & Hp)%text_request_fields.
  destruct (post_submit_run cfg e req s) as [H| | |t p' msg ? Hf ? ? Hs|];
    cbn; split; try intros [? ?]; try congruence; try done.
Qed.

Lemma post_submit_ok_iff_witness :
  (post_submit cfg0 healthy ada (fresh (Some empty_table))).1 = Ret response_ok
  <-> store_fails healthy (fresh (Some empty_table)) = false
      /\ smtp_fault healthy = None.
Proof.
  apply (post_submit_ok_iff cfg0 healthy ada (fresh (Some empty_table))).
  reflexivity.
Defined.

Lemma post_submit_try (cfg : Config) (e : Env) (req : ReqBody) :
  valid req = true ->
  post_submit cfg e req =
    try_catch (submit_try cfg e req)
      (fun error =>
         console_error [LStr "Submission Error:"; LStr (message error); LErr error];;
         mret (res_status_json 500 (Json [("message", failure_message)]))).
Proof. intros Hv. by rewrite post_submit_valid_unfold. Qed.

(** The [try] block returns nothing but the 200. *)
Lemma submit_try_returns (cfg : Config) (e : Env) (req : ReqBody) (s s0 : State)
    (r : Response) :
  submit_try cfg e req s = (Ret r, s0) -> r = response_ok.
Proof.
  unfold submit_try, sendMail. unfold_M.
  destruct (pool_query e (insert_of req) s) as [[q|?] s1]; [|done].
  destruct (rows0_id q s1) as [[i|?] s2]; [|done]. cbn.
  destruct (js_replace_newlines (prompt req) _) as [[d|?] s3]; [|done]. cbn.
  destruct (smtp_fault e); [done|]. cbn. by intros [= <- _].
Qed.

(** X9. Every 500 of [POST /submit] shows the caller the one fixed
    message, and what is written to the console is the very error the
    [try] block threw: the state is the one at the throw with one more
    line on stderr, carrying that error and its message. *)
Theorem post_submit_failure_logged (cfg : Config) (e : Env) (req : ReqBody)
    (s : State) (resp : Response) (s' : State) :
  post_submit cfg e req s = (Ret resp, s') ->
  status resp = 500 ->
  body resp = Json [("message",
    "Failed to send message. Please check server logs for details (Error 500).")]
  /\ exists err s0,
       submit_try cfg e req s = (Throw err, s0)
       /\ s' = add_log {| stream := Stderr;
                          args := [LStr "Submission Error:"; LStr (message err);
                                   LErr err] |} s0.
Proof.
  intros Hrun Hst.
  destruct (valid req) eqn:Hv.
  2: { rewrite post_submit_invalid in Hrun by done.
       injection Hrun as <- _. discriminate Hst. }
  rewrite post_submit_try in Hrun by done. unfold try_catch at 1 in Hrun.
  destruct (submit_try cfg e req s) as [[r|err] s0] eqn:Ht.
  - apply submit_try_returns in Ht as ->. injection Hrun as <- _. discriminate Hst.
  - unfold_M. injection Hrun as <- <-. split; [reflexivity|]. by exists err, s0.
Qed.

Lemma post_submit_failure_logged_witness :
  body response_500 = Json [("message",
    "Failed to send message. Please check server logs for details (Error 500).")]
  /\ exists err s0,
       submit_try cfg0 transport_down ada (fresh (Some empty_table)) = (Throw err, s0)
       /\ (post_submit cfg0 transport_down ada (fresh (Some empty_table))).2
          = add_log {| stream := Stderr;
                       args := [LStr "Submission Error:"; LStr (message err);
                                LErr err] |} s0.
Proof.
  apply (post_submit_failure_logged cfg0 transport_down ada (fresh (Some empty_table))
           response_500
           (post_submit cfg0 transport_down ada (fresh (Some empty_table))).2);
    reflexivity.
Defined.

(** * Startup, again *)

Lemma store_answers_faults (e : Env) :
  store_answers e = true -> connect_fault e = None /\ query_fault e = None.
Proof.
  unfold store_answers. rewrite andb_true_iff, !bool_decide_eq_true. tauto.
Qed.

(** X10. [initializeDatabase] never throws and never touches what is
    stored: the rows are as before, and the database is either unchanged or
    was missing its table and now has the empty one; no mail is sent. *)
Theorem initializeDatabase_keeps_rows (e : Env) (s : State) :
  exists s1,
    initializeDatabase e s = (Ret tt, s1)
    /\ stored s1 = stored s
    /\ (db s1 = db s \/ db s = None /\ db s1 = Some {| rows := []; serial := 1 |})
    /\ mail_attempts s1 = mail_attempts s.
Proof.
  rewrite initializeDatabase_run. eexists. split; [reflexivity|].
  destruct (connect_fault e); cbn; auto.
Qed.

(** X11. [initializeDatabase] never gets its table made.  The text of its
    statement is indented with no-break spaces, which the store does not
    read as white space, so the statement does not begin with its keyword
    and is rejected whenever it reaches the store.  In every environment
    the function ends in its [catch]: the database is as before, the one
    line it writes is the error line with the message of the error it ran
    into, and whenever the connection was made one more client is out of
    the pool. *)
Theorem initializeDatabase_never_creates_table (e : Env) (s : State) :
  parses CreateTableIfNotExists = false
  /\ exists s1,
       initializeDatabase e s = (Ret tt, s1)
       /\ db s1 = db s
       /\ console s1
          = console s
            ++ [{| stream := Stderr;
                   args := [LStr "Error connecting to or initializing PostgreSQL:";
                            LStr (message (init_error e))] |}]
       /\ pool_out s1 = match connect_fault e with
                        | Some _ => pool_out s
                        | None => S (pool_out s)
                        end
       /\ message (init_error e)
          = match connect_fault e, query_fault e with
            | Some msg, _ => msg
            | None, Some msg => msg
            | None, None =>
                "syntax error at or near " +:+ dq +:+ leading_word create_table_sql +:+ dq
            end.
Proof.
  split; [apply create_table_leading_word|].
  rewrite initializeDatabase_run. eexists. split; [reflexivity|].
  unfold init_error.
  destruct (connect_fault e), (query_fault e); by repeat split.
Qed.

(** X12. A database without the submissions table stays without it: after
    any startup, with a store that answers, [GET /submissions] answers 500
    with the store's message that the relation does not exist, and a valid
    [POST /submit] answers 500 and stores nothing. *)
Theorem startup_leaves_database_without_table (cfg : Config) (e e' : Env)
    (req : ReqBody) (s : State) :
  db s = None ->
  store_answers e' = true ->
  valid req = true ->
  db (startup cfg e s).2 = None
  /\ get_submissions e' (startup cfg e s).2
     = (Ret {| status := 500; body := Json [("error", no_relation)] |},
        (startup cfg e s).2)
  /\ exists s3,
       post_submit cfg e' req (startup cfg e s).2 = (Ret response_500, s3)
       /\ stored s3 = []
       /\ mail_attempts s3 = mail_attempts s.
Proof.
  intros Hd [Hc Hq]%store_answers_faults Hv.
  set (s1 := (startup cfg e s).2).
  assert (db s1 = None /\ mail_attempts s1 = mail_attempts s) as [Hd1 Hm1].
  { subst s1. rewrite startup_run.
    destruct (port_out_of_range (port cfg)); [done|].
    destruct (listen_fault e); [done|].
    rewrite initializeDatabase_run. by destruct (connect_fault e). }
  split; [done|]. split.
  - apply (get_submissions_throws e' s1 s1 (DatabaseError no_relation)).
    rewrite pool_query_run, Hc, Hq, exec_sql_select, Hd1.
    f_equal. rewrite <- Hd1. by destruct s1.
  - assert (pool_query e' (insert_of req) s1 = (Throw (DatabaseError no_relation), s1))
      as Hi.
    { rewrite pool_query_run, Hc, Hq. unfold insert_of.
      rewrite exec_sql_insert, Hd1. f_equal. rewrite <- Hd1. by destruct s1. }
    rewrite (post_submit_insert_throws cfg e' req s1 s1 _ Hv Hi).
    eexists. split; [reflexivity|]. unfold stored. cbn. by rewrite Hd1.
Qed.

Lemma startup_leaves_database_without_table_witness :
  db (startup cfg0 healthy (fresh None)).2 = None
  /\ get_submissions later (startup cfg0 healthy (fresh None)).2
     = (Ret {| status := 500; body := Json [("error", no_relation)] |},
        (startup cfg0 healthy (fresh None)).2)
  /\ exists s3,
       post_submit cfg0 later ada (startup cfg0 healthy (fresh None)).2
       = (Ret response_500, s3)
       /\ stored s3 = []
       /\ mail_attempts s3 = [].
Proof.
  apply (startup_leaves_database_without_table cfg0 healthy later ada (fresh None));
    reflexivity.
Defined.

(** * From submission to list *)

(** X13. What was acknowledged is listed: after a [POST /submit] answered
    200, a [GET /submissions] against a store that answers returns 200 with
    the new row among the rows, one row more than before. *)
Theorem submitted_row_is_listed (cfg : Config) (e e' : Env) (req : ReqBody)
    (s s' : State) (resp : Response) :
  post_submit cfg e req s = (Ret resp, s') ->
  status resp = 200 ->
  store_answers e' = true ->
  exists t rs,
    db s = Some t
    /\ get_submissions e' s' = (Ret {| status := 200; body := JsonRows rs |}, s')
    /\ new_row t (now e) req ∈ rs
    /\ length rs = S (length (stored s)).
Proof.
  intros Hrun Hst [Hc' Hq']%store_answers_faults.
  pose proof (post_submit_run cfg e req s) as H.
  rewrite Hrun in H. inversion H; subst; try discriminate Hst.
  exists t, (order_by_date_desc (rows (inserted t (now e) req))).
  split; [done|]. split.
  - by apply get_submissions_returns, select_accepted.
  - rewrite order_by_date_desc_perm. rewrite (stored_of_table s t) by done.
    cbn [inserted rows].
    split; [apply elem_of_app; right; by apply list_elem_of_singleton|].
    rewrite length_app. cbn. lia.
Qed.

Lemma submitted_row_is_listed_witness :
  exists t rs,
    db (fresh (Some three_rows)) = Some t
    /\ get_submissions later (post_submit cfg0 healthy ada (fresh (Some three_rows))).2
       = (Ret {| status := 200; body := JsonRows rs |},
          (post_submit cfg0 healthy ada (fresh (Some three_rows))).2)
    /\ new_row t 1000 ada ∈ rs
    /\ length rs = 4%nat.
Proof.
  apply (submitted_row_is_listed cfg0 healthy later ada (fresh (Some three_rows))
           (post_submit cfg0 healthy ada (fresh (Some three_rows))).2 response_ok);
    reflexivity.
Defined.

(** * Over the life of the process *)

Lemma get_submissions_state (e : Env) (s : State) : (get_submissions e s).2 = s.
Proof.
  destruct (store_fails_true_or_table e s) as [Hf|(Hf & Hc & Hq & t & Hd)].
  - destruct (select_rejected e s Hf) as [err Hs].
    by rewrite (get_submissions_throws e s s err Hs).
  - by rewrite (get_submissions_returns e s s _ (select_accepted e s t Hc Hq Hd)).
Qed.

(** What one call does to the table and the mail: nothing to the table and
    no mail, or the insert of one row with at most one mail. *)
Lemma call_step (cfg : Config) (c : Call) (s : State) :
  (db (call cfg c s) = db s
   /\ mail_attempts (call cfg c s) = mail_attempts s)
  \/ (exists t e req,
        db s = Some t
        /\ db (call cfg c s) = Some (inserted t (now e) req)
        /\ (length (mail_attempts (call cfg c s)) <= S (length (mail_attempts s)))%nat).
Proof.
  destruct c as [e|e req|e]; cbn [call].
  - rewrite startup_run.
    destruct (port_out_of_range (port cfg)); [by left|].
    destruct (listen_fault e); [by left|].
    rewrite initializeDatabase_run. left. by destruct (connect_fault e).
  - destruct (post_submit_run cfg e req s) as [| | |t p msg|t p]; cbn [snd]; auto.
    all: right; exists t, e, req; repeat split; try done; cbn.
    all: rewrite ?length_app; cbn; lia.
  - rewrite get_submissions_state. auto.
Qed.

(** X15. Rows are only ever added: over any sequence of calls the table
    before is a prefix of the table after (no row is deleted, changed or
    reordered), there is at most one new row per call, and never more mails
    handed to the transport than rows added. *)
Theorem rows_only_grow (cfg : Config) (cs : list Call) (s : State) :
  exists added,
    stored (run_calls cfg cs s) = stored s ++ added
    /\ (length added <= length cs)%nat
    /\ (length (mail_attempts (run_calls cfg cs s))
        <= length (mail_attempts s) + length added)%nat.
Proof.
  revert s. induction cs as [|c cs IH]; intros s.
  { exists []. cbn. rewrite app_nil_r. split; [done|]. split; lia. }
  cbn [run_calls foldl]. fold (run_calls cfg cs (call cfg c s)).
  destruct (IH (call cfg c s)) as (added & Hs & Hl & Hm).
  destruct (call_step cfg c s) as [[Hd Ha]|(t & e & req & Hd0 & Hd & Ha)].
  - exists added. rewrite Hs. rewrite Ha in Hm. unfold stored. rewrite Hd.
    split; [done|]. cbn [length]. split; lia.
  - exists (new_row t (now e) req :: added). rewrite Hs. unfold stored at 1 2.
    rewrite Hd, Hd0. cbn [inserted rows]. rewrite <- app_assoc.
    split; [done|]. cbn [length]. split; lia.
Qed.

Lemma post_submit_db (cfg : Config) (e : Env) (req : ReqBody) (s : State) (t : Table) :
  valid req = true -> store_answers e = true -> db s = Some t ->
  db (post_submit cfg e req s).2 = Some (inserted t (now e) req).
Proof.
  intros Hv [Hc Hq]%store_answers_faults Hd.
  assert (store_fails e s = false) as Hf by (unfold store_fails; by rewrite Hc, Hq, Hd).
  destruct (post_submit_run cfg e req s); cbn [snd]; cbn; congruence.
Qed.

(** X16. Newest first, end to end: two submissions accepted by the store
    one after the other into an empty table, the second at a later time of
    the store, are listed second first; the second has the next id. *)
Theorem two_submissions_newest_first (cfg : Config) (e1 e2 e3 : Env)
    (req1 req2 : ReqBody) (s : State) (t : Table) :
  db s = Some t -> rows t = [] ->
  valid req1 = true -> valid req2 = true ->
  store_answers e1 = true -> store_answers e2 = true -> store_answers e3 = true ->
  now e1 < now e2 ->
  let s1 := (post_submit cfg e1 req1 s).2 in
  let s2 := (post_submit cfg e2 req2 s1).2 in
  let r1 := new_row t (now e1) req1 in
  let r2 := new_row (inserted t (now e1) req1) (now e2) req2 in
  get_submissions e3 s2 = (Ret {| status := 200; body := JsonRows [r2; r1] |}, s2)
  /\ Submission.id r2 = Submission.id r1 + 1.
Proof.
  intros Hd Hr Hv1 Hv2 Ha1 Ha2 Ha3 Hlt s1 s2 r1 r2.
  assert (db s1 = Some (inserted t (now e1) req1)) as Hd1
    by by apply post_submit_db.
  assert (db s2 = Some (inserted (inserted t (now e1) req1) (now e2) req2)) as Hd2
    by by apply post_submit_db.
  apply store_answers_faults in Ha3 as [Hc3 Hq3].
  split; [|done].
  rewrite (get_submissions_returns e3 s2 s2 _ (select_accepted e3 s2 _ Hc3 Hq3 Hd2)).
  do 3 f_equal. cbn [inserted rows]. rewrite Hr. cbn [app].
  fold r1 r2. unfold order_by_date_desc, merge_sort. cbn.
  rewrite decide_False by (unfold date_desc; subst r1 r2; cbn; lia). done.
Qed.

Lemma two_submissions_newest_first_witness :
  let s1 := (post_submit cfg0 healthy ada (fresh (Some empty_table))).2 in
  let s2 := (post_submit cfg0 later bob s1).2 in
  let r1 := new_row empty_table 1000 ada in
  let r2 := new_row (inserted empty_table 1000 ada) 2000 bob in
  get_submissions healthy s2 = (Ret {| status := 200; body := JsonRows [r2; r1] |}, s2)
  /\ Submission.id r2 = Submission.id r1 + 1.
Proof.
  apply (two_submissions_newest_first cfg0 healthy later healthy ada bob
           (fresh (Some empty_table)) empty_table);
    reflexivity.
Defined.


(** X18. What [replace(/\n/g, '<br>')] does to a text of several lines:
    lines without line feed, joined by line feeds, come out joined by
    [<br>], each line as it was. *)
Theorem replace_newlines_join (lines : list string) :
  Forall (fun l => no_newline l = true) lines ->
  replace_newlines (join nl lines) = join "<br>" lines.
Proof.
  induction 1 as [|l rest Hl Hrest IH]; [reflexivity|].
  destruct rest as [|l' rest].
  - by apply replace_newlines_id.
  - change (join nl (l :: l' :: rest)) with (l +:+ nl +:+ join nl (l' :: rest)).
    change (join "<br>" (l :: l' :: rest))
      with (l +:+ "<br>" +:+ join "<br>" (l' :: rest)).
    rewrite !replace_newlines_app, replace_newlines_nl, IH.
    by rewrite replace_newlines_id.
Qed.

Lemma replace_newlines_join_witness :
  replace_newlines (join nl ["Dear owner,"; EmptyString; "Let's talk"; "Thanks"])
  = join "<br>" ["Dear owner,"; EmptyString; "Let's talk"; "Thanks"].
Proof.
  apply (replace_newlines_join ["Dear owner,"; EmptyString; "Let's talk"; "Thanks"]).
  repeat constructor.
Defined.

(** X19. An about that is a non-empty string is shown as it is: for a
    request of text fields whose insert returned, the subject and the body
    of the mail carry the text of about and the stored row has the same
    text; no label is substituted. *)
Theorem about_present (cfg : Config) (e : Env) (req : ReqBody)
    (s s1 : State) (a p : string) (r : QueryResult) :
  text_request req = true ->
  about req = JStr a -> is_empty a = false ->
  prompt req = JStr p ->
  pool_query e (insert_of req) s = (Ret r, s1) ->
  let m := mail_of cfg req p in
  exists t,
    db s = Some t
    /\ mail_attempts (post_submit cfg e req s).2 = mail_attempts s ++ [m]
    /\ stored (post_submit cfg e req s).2 = stored s ++ [new_row t (now e) req]
    /\ subject m = "New Portfolio Inquiry: " +:+ a
                   +:+ " from " +:+ to_string (name req)
    /\ contains (html m)
         ("<p><strong>Subject (About):</strong> " +:+ a +:+ "</p>")
    /\ Submission.about (new_row t (now e) req) = Some a.
Proof.
  intros (Hv & _)%text_request_fields Ha Hne Hp Hq m.
  destruct (post_submit_effects cfg e req s s1 p r Hv Hp Hq) as (t & Hd & Hs & Hm).
  exists t. do 3 (split; [done|]).
  subst m. unfold mail_of, mailOptions, new_row, js_or.
  cbn [subject html Submission.about]. rewrite Ha. cbn [truthy to_string prepareValue].
  rewrite Hne. cbn [negb].
  split; [reflexivity|]. split; [find_occurrence|done].
Qed.

Lemma about_present_witness :
  let m := mail_of cfg0 ada ("Let's talk" +:+ nl +:+ "Thanks") in
  exists t,
    db (fresh (Some empty_table)) = Some t
    /\ mail_attempts (post_submit cfg0 healthy ada (fresh (Some empty_table))).2 = [] ++ [m]
    /\ stored (post_submit cfg0 healthy ada (fresh (Some empty_table))).2
       = [] ++ [new_row t 1000 ada]
    /\ subject m = "New Portfolio Inquiry: " +:+ "Hiring" +:+ " from " +:+ "Ada"
    /\ contains (html m)
         ("<p><strong>Subject (About):</strong> " +:+ "Hiring" +:+ "</p>")
    /\ Submission.about (new_row t 1000 ada) = Some "Hiring".
Proof.
  apply (about_present cfg0 healthy ada (fresh (Some empty_table))
           (set_db (Some (inserted empty_table 1000 ada)) (fresh (Some empty_table)))
           "Hiring" ("Let's talk" +:+ nl +:+ "Thanks") (Returning [1]));
    reflexivity.
Defined.
